(** * linkedin_scheduler.py: a shallow embedding and its properties

    The script keeps three pieces of process-wide state: the credential
    ([token_info], [user_urn]), the APScheduler job store ([scheduler]) and
    what it has written (log records, standard output).  Everything outside
    the script (the environment file, the clock, the operator, the OAuth2
    library and the network) is gathered in one record [Env] of oracles, and
    every call that leaves the script is recorded on a trace of [event]s.

    Python functions become computations in a state-and-exception monad [M]
    over [World]; [try]/[except] is [try_except]. *)

From stdpp Require Import base option list strings pretty gmap fin_maps.
From Stdlib Require Import ZArith Lia.

Local Open Scope string_scope.
Local Open Scope Z_scope.

(** ** Python values *)

(** The scalar values that occur in the token dictionary and in the JSON
    bodies the script reads. *)
Inductive pyval :=
| VNone
| VStr (s : string)
| VInt (z : Z).

#[global] Instance pyval_eq_dec : EqDecision pyval.
Proof. solve_decision. Defined.

(** [str(v)], as used by f-strings. *)
Definition py_str (v : pyval) : string :=
  match v with
  | VNone => "None"
  | VStr s => s
  | VInt z => pretty z
  end.

(** A Python [dict] with string keys. *)
Abbreviation pydict := (gmap string pyval).

(** Truth value of an [os.getenv] result: [None] and the empty string are false. *)
Definition truthy (o : option string) : bool :=
  match o with
  | None => false
  | Some s => negb (String.eqb s EmptyString)
  end.

(** Truth value of a scalar: [None], the empty string and zero are false. *)
Definition py_truthy (v : pyval) : bool :=
  match v with
  | VNone => false
  | VStr s => negb (String.eqb s EmptyString)
  | VInt z => negb (z =? 0)
  end.

(** Truth value of a dict: the empty dict is false. *)
Definition dict_truthy (d : pydict) : bool :=
  negb (bool_decide (d = ∅)).

(** ['k' in d]. *)
Definition dict_has (k : string) (d : pydict) : bool :=
  bool_decide (is_Some (d !! k)).

(** [d.get(k)]: the value, or [None]. *)
Definition dict_get (k : string) (d : pydict) : pyval :=
  default VNone (d !! k).

(** [s[:n]]. *)
Definition slice_to (n : nat) (s : string) : string := String.substring 0 n s.

Definition NL : string := String (Ascii.ascii_of_nat 10) EmptyString.

(** ** Time *)

(** A [datetime] is an instant with microsecond resolution, kept as the
    number of microseconds since the Unix epoch (may be negative).  Naive
    datetimes are read in a local zone equal to UTC. *)
Record datetime := { micros : Z }.

#[global] Instance datetime_eq_dec : EqDecision datetime.
Proof. solve_decision. Defined.

Definition dt_ltb (a b : datetime) : bool := micros a <? micros b.



(** [int(d.timestamp())].  [timestamp()] is [micros d / 10^6] seconds;
    [int] drops the fraction, rounding toward zero.  The quotient is taken
    exactly here.  Python goes through a binary64 float, whose rounding
    error stays below a microsecond while the timestamp is below 2^34
    seconds in magnitude (year 2514), so that the integer is this one. *)
Definition int_timestamp (d : datetime) : Z := micros d `quot` 1000000.

(** What a caller may pass as [post_time]. *)
Inductive pyobj :=
| PyNone
| PyStr (s : string)
| PyInt (z : Z)
| PyDatetime (d : datetime).

(** ** HTTP *)

(** A [requests.Response]: status, body text, and the body parsed as a JSON
    object when it is one ([None]: [response.json()] raises
    [json.JSONDecodeError]). *)
Record Response := {
  status_code : Z;
  text : string;
  json_body : option pydict
}.

(** The exception classes the script names in an [except] clause.  Every
    exception is an [Exception]. *)
Inductive exn_class := Exception | RequestException | JSONDecodeError.

#[global] Instance exn_class_eq_dec : EqDecision exn_class.
Proof. solve_decision. Defined.

(** A raised exception: the named classes it is an instance of, [str(e)],
    and its [response] attribute when it has one that is not [None]. *)
Record exn := {
  exn_classes : list exn_class;
  exn_str : string;
  exn_response : option Response
}.

Definition isinstance (e : exn) (c : exn_class) : bool :=
  match c with
  | Exception => true
  | _ => bool_decide (c ∈ exn_classes e)
  end.

(** The result of a call: a value or a raised exception. *)
Inductive outcome (A : Type) :=
| Return (a : A)
| Raise (e : exn).
Arguments Return {A} a.
Arguments Raise {A} e.

(** An [OAuth2Session]: what [get_oauth_session] passes to the constructor. *)
Record OAuth2Session := {
  session_client_id : option string;
  session_redirect_uri : string;
  session_scope : list string;
  session_token : option pydict;
  (** the anti-forgery state [authorization_url] generated, if any *)
  session_state : option string
}.

(** The JSON body of the post request. *)
Record PostBody := {
  author : option string;
  lifecycleState : string;
  shareCommentary_text : string;
  shareMediaCategory : string;
  visibility : string
}.

(** ** The world *)

Inductive level := INFO | WARNING | ERROR | CRITICAL.

#[global] Instance level_eq_dec : EqDecision level.
Proof. solve_decision. Defined.

(** Calls that leave the script, each recorded when it is made; what the
    library does with the call (it may raise before anything is sent) is
    the environment's answer. *)
Inductive event :=
| EAuthorizationUrl (s : OAuth2Session) (url : string)
| EBrowserOpen (url : string)
| EInput (prompt : string)
| EFetchToken (s : OAuth2Session) (token_url : string)
    (client_secret : option string) (authorization_response : string)
| EGet (s : OAuth2Session) (url : string)
| EPost (s : OAuth2Session) (url : string)
    (headers : list (string * string)) (json : PostBody).

(** An APScheduler job, with the fields [add_job] is given. *)
Record Job := {
  job_id : string;
  (** the callable, by name, and the trigger kind *)
  job_func : string;
  job_trigger : string;
  job_run_date : datetime;
  job_args : list string;
  job_kwargs : gmap string string;
  job_name : string;
  job_next_run_time : option datetime
}.

Record World := {
  token_info : pydict;
  user_urn : option string;
  scheduler : gmap string Job;
  logs : list (level * string);
  stdout : list string;
  trace : list event
}.

(** Everything the script reads from outside itself. *)
Record Env := {
  CLIENT_ID : option string;
  CLIENT_SECRET : option string;
  (** [hash(text)] of the running interpreter *)
  hash : string → Z;
  (** [datetime.now(tz)] *)
  now : datetime;
  (** [str(d)] and [str(d.astimezone())] *)
  str_datetime : datetime → string;
  str_local : datetime → string;
  (** [linkedin.authorization_url(base)]: the URL and the fresh state *)
  make_authorization_url : string → string * string;
  (** [webbrowser.open(url)]: [Some e] when it raises *)
  browser : string → option exn;
  (** what the operator pastes *)
  pasted : string;
  (** the [code] and [state] query parameters of a callback URL *)
  callback_params : string → option string * option string;
  (** the token endpoint, given the authorization code *)
  token_endpoint : string → outcome pydict;
  (** [session.get(url)] and [session.post(url, headers, json)] *)
  http_get : OAuth2Session → string → outcome Response;
  http_post : OAuth2Session → string → list (string * string) → PostBody →
              outcome Response;
  (** [json.dumps(v, indent=2)] *)
  json_dumps : pydict → string;
  (** whether the [JSONDecodeError] of [response.json()] is a
      [RequestException] (it is from requests 2.27 on) *)
  json_error_is_request_exception : bool
}.

(** [os.getenv(name)] as a Python value. *)
Definition getenv_value (o : option string) : pyval :=
  match o with
  | Some s => VStr s
  | None => VNone
  end.

(** The globals as the script initialises them: [token_info] is the
    dictionary with the one key [access_token], whose value is the
    environment's token or [None]; [user_urn] is the environment's URN or
    [None]; the scheduler has no job. *)
Definition initial_world (LINKEDIN_ACCESS_TOKEN LINKEDIN_USER_URN : option string)
  : World :=
  {| token_info := {[ "access_token" := getenv_value LINKEDIN_ACCESS_TOKEN ]};
     user_urn := LINKEDIN_USER_URN;
     scheduler := ∅; logs := []; stdout := []; trace := [] |}.

(** ** The monad *)

Definition M (A : Type) : Type := World → outcome A * World.

Definition ret {A} (a : A) : M A := λ w, (Return a, w).

Definition bind {A B} (m : M A) (k : A → M B) : M B :=
  λ w, match m w with
       | (Return a, w') => k a w'
       | (Raise e, w') => (Raise e, w')
       end.

Definition raise {A} (e : exn) : M A := λ w, (Raise e, w).

(** The first clause of [except c1 as e: h1 / except c2 as e: h2 ...] whose
    class [e] is an instance of. *)
Fixpoint find_handler {A} (handlers : list (exn_class * (exn → M A))) (e : exn)
  : option (M A) :=
  match handlers with
  | [] => None
  | (c, h) :: rest => if isinstance e c then Some (h e) else find_handler rest e
  end.

(** [try: body / except c1 as e: h1 / ...].  A handler starts from the world
    the body left behind; an exception no clause matches propagates, and so
    does one raised by a handler. *)
Definition try_except {A} (body : M A) (handlers : list (exn_class * (exn → M A)))
  : M A :=
  λ w, match body w with
       | (Return a, w') => (Return a, w')
       | (Raise e, w') =>
           match find_handler handlers e with
           | Some h => h w'
           | None => (Raise e, w')
           end
       end.

#[global] Instance M_ret : MRet M := @ret.
#[global] Instance M_bind : MBind M := λ A B k m, bind m k.

Definition lift_outcome {A} (o : outcome A) : M A := λ w, (o, w).

(** World updates: each touches one field. *)
Definition add_log (l : level) (msg : string) (w : World) : World :=
  {| token_info := token_info w; user_urn := user_urn w;
     scheduler := scheduler w; logs := logs w ++ [(l, msg)];
     stdout := stdout w; trace := trace w |}.

Definition add_stdout (s : string) (w : World) : World :=
  {| token_info := token_info w; user_urn := user_urn w;
     scheduler := scheduler w; logs := logs w;
     stdout := stdout w ++ [s]; trace := trace w |}.

Definition add_event (e : event) (w : World) : World :=
  {| token_info := token_info w; user_urn := user_urn w;
     scheduler := scheduler w; logs := logs w;
     stdout := stdout w; trace := trace w ++ [e] |}.

Definition with_token_info (t : pydict) (w : World) : World :=
  {| token_info := t; user_urn := user_urn w;
     scheduler := scheduler w; logs := logs w;
     stdout := stdout w; trace := trace w |}.

Definition with_user_urn (u : option string) (w : World) : World :=
  {| token_info := token_info w; user_urn := u;
     scheduler := scheduler w; logs := logs w;
     stdout := stdout w; trace := trace w |}.

Definition with_scheduler (s : gmap string Job) (w : World) : World :=
  {| token_info := token_info w; user_urn := user_urn w;
     scheduler := s; logs := logs w;
     stdout := stdout w; trace := trace w |}.

(** [logging.<level>(msg)], [print(s)], and a call leaving the script. *)
Definition logging (l : level) (msg : string) : M unit :=
  λ w, (Return tt, add_log l msg w).

Definition print (s : string) : M unit :=
  λ w, (Return tt, add_stdout s w).

Definition emit (e : event) : M unit :=
  λ w, (Return tt, add_event e w).

(** Reading and assigning the globals. *)
Definition get_token_info : M pydict := λ w, (Return (token_info w), w).
Definition get_user_urn : M (option string) := λ w, (Return (user_urn w), w).
Definition get_scheduler : M (gmap string Job) := λ w, (Return (scheduler w), w).

Definition set_token_info (t : pydict) : M unit :=
  λ w, (Return tt, with_token_info t w).

Definition set_user_urn (u : option string) : M unit :=
  λ w, (Return tt, with_user_urn u w).

Definition set_scheduler (s : gmap string Job) : M unit :=
  λ w, (Return tt, with_scheduler s w).

(** [for x in l: body x]. *)
Fixpoint for_each {A} (l : list A) (body : A → M unit) : M unit :=
  match l with
  | [] => mret tt
  | x :: rest => body x ;; for_each rest body
  end.

(** ** Constants of the script *)

Definition REDIRECT_URI : string := "http://localhost:8080/callback".
Definition AUTHORIZATION_URL : string := "https://www.linkedin.com/oauth/v2/authorization".
Definition ACCESS_TOKEN_URL : string := "https://www.linkedin.com/oauth/v2/accessToken".
Definition API_BASE_URL : string := "https://api.linkedin.com/v2/".
Definition SCOPES : list string := ["r_liteprofile"; "w_member_social"].

Section Script.

Context (env : Env).

(** ** The libraries, by their contracts *)

(** [session.authorization_url(base)]: builds the URL, remembers the state. *)
Definition authorization_url (s : OAuth2Session) (base : string)
  : M (string * string * OAuth2Session) :=
  let '(url, state) := make_authorization_url env base in
  emit (EAuthorizationUrl s url) ;;
  mret (url, state,
        {| session_client_id := session_client_id s;
           session_redirect_uri := session_redirect_uri s;
           session_scope := session_scope s;
           session_token := session_token s;
           session_state := Some state |}).

(** [webbrowser.open(url)]. *)
Definition webbrowser_open (url : string) : M unit :=
  emit (EBrowserOpen url) ;;
  match browser env url with
  | Some e => raise e
  | None => mret tt
  end.

(** [input(prompt)]. *)
Definition input (prompt : string) : M string :=
  emit (EInput prompt) ;;
  mret (pasted env).

Definition MismatchingStateError : exn :=
  {| exn_classes := []; exn_str := "(mismatching_state) CSRF Warning! State not equal in request and response.";
     exn_response := None |}.

Definition MissingCodeError : exn :=
  {| exn_classes := []; exn_str := "(missing_code) Missing code parameter in response.";
     exn_response := None |}.

(** What [session.fetch_token(..., authorization_response)] yields: the
    callback's state must be the one the session issued, the callback must
    carry a code, and the token endpoint must answer. *)
Definition fetch_token_result (s : OAuth2Session) (authorization_response : string)
  : outcome pydict :=
  let '(code, state) := callback_params env authorization_response in
  if truthy (session_state s) && negb (bool_decide (state = session_state s))
  then Raise MismatchingStateError
  else match code with
       | None => Raise MissingCodeError
       | Some c => token_endpoint env c
       end.

(** [session.fetch_token(token_url, client_secret, authorization_response)]:
    on success the session holds the token it returns. *)
Definition fetch_token (s : OAuth2Session) (token_url : string)
    (client_secret : option string) (authorization_response : string)
  : M (pydict * OAuth2Session) :=
  emit (EFetchToken s token_url client_secret authorization_response) ;;
  token ← lift_outcome (fetch_token_result s authorization_response) ;
  mret (token,
        {| session_client_id := session_client_id s;
           session_redirect_uri := session_redirect_uri s;
           session_scope := session_scope s;
           session_token := Some token;
           session_state := session_state s |}).

(** [session.get(url)]. *)
Definition session_get (s : OAuth2Session) (url : string) : M Response :=
  emit (EGet s url) ;;
  lift_outcome (http_get env s url).

(** [session.post(url, headers=..., json=...)]. *)
Definition session_post (s : OAuth2Session) (url : string)
    (headers : list (string * string)) (body : PostBody) : M Response :=
  emit (EPost s url headers body) ;;
  lift_outcome (http_post env s url headers body).

Definition HTTPError (r : Response) : exn :=
  {| exn_classes := [RequestException];
     exn_str := pretty (status_code r) +:+ " Error";
     exn_response := Some r |}.

(** [response.raise_for_status()]: raises [HTTPError] for 4xx and 5xx. *)
Definition raise_for_status (r : Response) : M unit :=
  if (400 <=? status_code r) && (status_code r <? 600)
  then raise (HTTPError r)
  else mret tt.

Definition json_decode_error : exn :=
  {| exn_classes :=
       JSONDecodeError ::
       (if json_error_is_request_exception env then [RequestException] else []);
     exn_str := "Expecting value: line 1 column 1 (char 0)";
     exn_response := None |}.

(** [response.json()]. *)
Definition response_json (r : Response) : M pydict :=
  match json_body r with
  | Some d => mret d
  | None => raise json_decode_error
  end.

(** [scheduler.get_jobs()]. *)
Definition get_jobs : M (list Job) :=
  s ← get_scheduler ;
  mret ((map_to_list s).*2).

Definition ConflictingIdError (id : string) : exn :=
  {| exn_classes := [];
     exn_str := "Job identifier (" +:+ id +:+ ") conflicts with an existing job";
     exn_response := None |}.

(** [scheduler.add_job(..., id=..., replace_existing=...)] on a running
    scheduler: a job with the same id is replaced when [replace_existing],
    and is a [ConflictingIdError] otherwise. *)
Definition add_job (j : Job) (replace_existing : bool) : M unit :=
  s ← get_scheduler ;
  match s !! job_id j with
  | Some _ =>
      if replace_existing then set_scheduler (<[job_id j := j]> s)
      else raise (ConflictingIdError (job_id j))
  | None => set_scheduler (<[job_id j := j]> s)
  end.

(** ** The script *)

(** [get_oauth_session(token=None)]. *)
Definition get_oauth_session (token : option pydict) : OAuth2Session :=
  {| session_client_id := CLIENT_ID env;
     session_redirect_uri := REDIRECT_URI;
     session_scope := SCOPES;
     session_token := token;
     session_state := None |}.

(** [get_profile_info(oauth_session)]: the parsed profile, or [None]. *)
Definition get_profile_info (oauth_session : OAuth2Session) : M (option pydict) :=
  try_except
    (let profile_url := API_BASE_URL +:+ "me" in
     response ← session_get oauth_session profile_url ;
     raise_for_status response ;;
     profile ← response_json response ;
     mret (Some profile))
    [ (RequestException, λ e,
         logging ERROR ("Error fetching profile info: " +:+ exn_str e) ;;
         match exn_response e with
         | Some r => logging ERROR ("Response Content: " +:+ text r)
         | None => mret tt
         end ;;
         mret None) ].

(** [perform_oauth_flow()]. *)
Definition perform_oauth_flow : M bool :=
  if negb (truthy (CLIENT_ID env)) || negb (truthy (CLIENT_SECRET env)) then
    logging ERROR "Client ID or Client Secret not found in .env file. Cannot authenticate." ;;
    mret false
  else
    let linkedin := get_oauth_session None in
    '(authorization_url, state, linkedin) ← authorization_url linkedin AUTHORIZATION_URL ;
    print ("Please go to this URL and authorize the application:" +:+ NL +:+ authorization_url) ;;
    print (NL +:+ "Opening browser...") ;;
    try_except (webbrowser_open authorization_url)
      [ (Exception, λ e,
           logging WARNING ("Could not open browser automatically: " +:+ exn_str e
                            +:+ ". Please copy the URL manually.")) ] ;;
    redirect_response ← input "Paste the full redirect URL from your browser after authorizing: " ;
    if String.eqb redirect_response EmptyString then
      logging ERROR "No redirect URL provided. Authentication failed." ;;
      mret false
    else
      try_except
        ('(token, linkedin) ← fetch_token linkedin ACCESS_TOKEN_URL
                                 (CLIENT_SECRET env) redirect_response ;
         set_token_info token ;;
         logging INFO "Successfully obtained access token." ;;
         profile_info ← get_profile_info linkedin ;
         match profile_info with
         | Some profile =>
             if dict_truthy profile && dict_has "id" profile then
               let urn := "urn:li:person:" +:+ py_str (dict_get "id" profile) in
               set_user_urn (Some urn) ;;
               logging INFO ("Obtained user URN: " +:+ urn) ;;
               print (NL +:+ "--- Authentication Successful ---") ;;
               print ("Your Access Token: " +:+ py_str (dict_get "access_token" token)) ;;
               print ("Your User URN: " +:+ urn) ;;
               print "RECOMMENDATION: Update your .env file with these values to avoid authenticating next time." ;;
               print ("--------------------------------" +:+ NL) ;;
               mret true
             else
               logging ERROR "Could not retrieve user URN after authentication." ;;
               mret false
         | None =>
             logging ERROR "Could not retrieve user URN after authentication." ;;
             mret false
         end)
        [ (Exception, λ e,
             logging ERROR ("Error during token fetch or profile info retrieval: "
                            +:+ exn_str e) ;;
             mret false) ].

(** The request body [post_linkedin_update] builds. *)
Definition post_body_of (urn : option string) (text_content : string) : PostBody :=
  {| author := urn;
     lifecycleState := "PUBLISHED";
     shareCommentary_text := text_content;
     shareMediaCategory := "NONE";
     visibility := "CONNECTIONS" |}.

Definition post_headers : list (string * string) :=
  [("Content-Type", "application/json"); ("X-Restli-Protocol-Version", "2.0.0")].

(** [post_linkedin_update(text_content)]. *)
Definition post_linkedin_update (text_content : string) : M bool :=
  token ← get_token_info ;
  if negb (dict_truthy token) || negb (dict_has "access_token" token) then
    logging ERROR "No valid access token found. Please authenticate first." ;;
    mret false
  else
    urn ← get_user_urn ;
    if negb (truthy urn) then
      logging ERROR "User URN not set. Cannot determine where to post." ;;
      mret false
    else
      let linkedin := get_oauth_session (Some token) in
      let post_api_url := API_BASE_URL +:+ "ugcPosts" in
      let post_body := post_body_of urn text_content in
      try_except
        (let headers := post_headers in
         response ← session_post linkedin post_api_url headers post_body ;
         raise_for_status response ;;
         logging INFO ("Successfully posted update to LinkedIn: '"
                       +:+ slice_to 50 text_content +:+ "...'") ;;
         mret true)
        [ (RequestException, λ e,
             logging ERROR ("Error posting to LinkedIn: " +:+ exn_str e) ;;
             match exn_response e with
             | Some r =>
                 try_except
                   (error_details ← response_json r ;
                    logging ERROR ("API Error Details: " +:+ json_dumps env error_details))
                   [ (JSONDecodeError, λ _,
                        logging ERROR ("Response Content: " +:+ text r)) ]
             | None => mret tt
             end ;;
             mret false) ;
          (Exception, λ e,
             logging ERROR ("An unexpected error occurred during posting: " +:+ exn_str e) ;;
             mret false) ].

(** The identifier [schedule_linkedin_post] derives for a job. *)
Definition derive_job_id (post_time : datetime) (text_content : string) : string :=
  "linkedin_post_" +:+ pretty (int_timestamp post_time) +:+ "_"
    +:+ pretty (hash env text_content).

(** The job [schedule_linkedin_post] hands to [add_job]: a date trigger at
    [post_time], the text as the only positional argument, no keyword
    arguments. *)
Definition job_of (post_time : datetime) (text_content : string) : Job :=
  {| job_id := derive_job_id post_time text_content;
     job_func := "post_linkedin_update";
     job_trigger := "date";
     job_run_date := post_time;
     job_args := [text_content];
     job_kwargs := ∅;
     job_name := "LinkedIn: " +:+ slice_to 30 text_content +:+ "...";
     job_next_run_time := Some post_time |}.

(** [schedule_linkedin_post(post_time, text_content)].  The function has no
    [return] with a value: it yields [None] on every path. *)
Definition schedule_linkedin_post (post_time : pyobj) (text_content : string) : M pyobj :=
  match post_time with
  | PyDatetime post_time =>
      (if dt_ltb post_time (now env) then
         logging WARNING ("Scheduled time " +:+ str_datetime env post_time
           +:+ " is in the past. Posting immediately (or skipping if scheduler already started).")
       else mret tt) ;;
      add_job (job_of post_time text_content) true ;;
      logging INFO ("Scheduled post for " +:+ str_datetime env post_time +:+ ": '"
                    +:+ slice_to 50 text_content +:+ "...'") ;;
      mret PyNone
  | _ =>
      logging ERROR "Invalid post_time provided. It must be a datetime object." ;;
      mret PyNone
  end.

(** The lines [list_scheduled_posts] prints for one job. *)
Definition print_job (job : Job) : M unit :=
  let run_time_local :=
    match job_next_run_time job with
    | Some t => str_local env t
    | None => "N/A"
    end in
  print ("ID: " +:+ job_id job) ;;
  print ("  Run Time (Local): " +:+ run_time_local) ;;
  print ("  Content: " +:+ default "N/A" (job_kwargs job !! "text_content")) ;;
  print "--------------------".

(** [list_scheduled_posts()]. *)
Definition list_scheduled_posts : M unit :=
  jobs ← get_jobs ;
  match jobs with
  | [] => print "No posts currently scheduled."
  | _ =>
      print "--- Scheduled Posts ---" ;;
      for_each jobs print_job ;;
      print ("-----------------------" +:+ NL)
  end.

End Script.

(** The test the main block makes before it starts the authorization flow:
    [not token_info.get('access_token') or not user_urn]. *)
Definition needs_authentication (w : World) : bool :=
  negb (py_truthy (dict_get "access_token" (token_info w)))
  || negb (truthy (user_urn w)).

(** [schedule_linkedin_post(post_time, text_content)] called [n] times in a
    row with the same arguments. *)
Fixpoint resubmit (env : Env) (n : nat) (post_time : pyobj) (text_content : string)
  : M unit :=
  match n with
  | O => mret tt
  | S k =>
      schedule_linkedin_post env post_time text_content ;;
      resubmit env k post_time text_content
  end.

(** ** Vocabulary of the properties *)

(** The credential is absent: the token dictionary is empty or has no
    [access_token] entry, or [user_urn] is [None] or empty. *)
Definition credential_absent (w : World) : Prop :=
  token_info w = ∅ ∨ token_info w !! "access_token" = None ∨
  user_urn w = None ∨ user_urn w = Some EmptyString.

(** The credential is present: an [access_token] entry and a non-empty
    [user_urn]. *)
Definition credential_present (w : World) : Prop :=
  is_Some (token_info w !! "access_token") ∧
  ∃ urn, user_urn w = Some urn ∧ urn ≠ EmptyString.

(** The diagnostics of the two credential guards of [post_linkedin_update]. *)
Definition MissingCredential (msg : string) : Prop :=
  msg = "No valid access token found. Please authenticate first." ∨
  msg = "User URN not set. Cannot determine where to post.".

(** The diagnostic of the configuration guard of [perform_oauth_flow]. *)
Definition MissingClientConfig : string :=
  "Client ID or Client Secret not found in .env file. Cannot authenticate.".

(** A 4xx or 5xx status, the ones [raise_for_status] raises for. *)
Definition error_status (r : Response) : Prop :=
  400 ≤ status_code r < 600.

(** The one call [post_linkedin_update] makes in world [w], and its outcome. *)
Definition post_request (env : Env) (w : World) (text_content : string) : event :=
  EPost (get_oauth_session env (Some (token_info w))) (API_BASE_URL +:+ "ugcPosts")
    post_headers (post_body_of (user_urn w) text_content).

Definition post_outcome (env : Env) (w : World) (text_content : string)
  : outcome Response :=
  http_post env (get_oauth_session env (Some (token_info w)))
    (API_BASE_URL +:+ "ugcPosts") post_headers (post_body_of (user_urn w) text_content).

(** World [w] after one call [ev] and the log records [new_logs]. *)
Definition after_call (w : World) (ev : event) (new_logs : list (level * string))
  : World :=
  {| token_info := token_info w; user_urn := user_urn w; scheduler := scheduler w;
     logs := logs w ++ new_logs; stdout := stdout w; trace := trace w ++ [ev] |}.

(** The state [perform_oauth_flow] issues, and the session that remembers it. *)
Definition issued_state (env : Env) : string :=
  (make_authorization_url env AUTHORIZATION_URL).2.

Definition flow_session (env : Env) : OAuth2Session :=
  {| session_client_id := CLIENT_ID env;
     session_redirect_uri := REDIRECT_URI;
     session_scope := SCOPES;
     session_token := None;
     session_state := Some (issued_state env) |}.

(** The token [perform_oauth_flow] obtains, when it gets as far as a token
    exchange that succeeds. *)
Definition exchanged_token (env : Env) : option pydict :=
  if negb (truthy (CLIENT_ID env)) || negb (truthy (CLIENT_SECRET env)) then None
  else if String.eqb (pasted env) EmptyString then None
  else match fetch_token_result env (flow_session env) (pasted env) with
       | Return token => Some token
       | Raise _ => None
       end.

(** The log records one accepted submission writes. *)
Definition schedule_logs (env : Env) (d : datetime) (text_content : string)
  : list (level * string) :=
  (if dt_ltb d (now env)
   then [(WARNING, "Scheduled time " +:+ str_datetime env d
            +:+ " is in the past. Posting immediately (or skipping if scheduler already started).")]
   else [])
  ++ [(INFO, "Scheduled post for " +:+ str_datetime env d +:+ ": '"
             +:+ slice_to 50 text_content +:+ "...'")].

(** World [w] after a submission was accepted. *)
Definition after_schedule (env : Env) (d : datetime) (text_content : string)
    (w : World) : World :=
  {| token_info := token_info w; user_urn := user_urn w;
     scheduler := <[derive_job_id env d text_content := job_of env d text_content]>
                    (scheduler w);
     logs := logs w ++ schedule_logs env d text_content;
     stdout := stdout w; trace := trace w |}.

(** What [list_scheduled_posts] prints when [job] is the only job. *)
Definition listing_of (env : Env) (job : Job) (content : string) : list string :=
  [ "--- Scheduled Posts ---";
    "ID: " +:+ job_id job;
    "  Run Time (Local): " +:+ str_local env (job_run_date job);
    "  Content: " +:+ content;
    "--------------------";
    "-----------------------" +:+ NL ].

(** ** Concrete environments and worlds *)

Module Examples.

Definition created : Response :=
  {| status_code := 201; text := "{}"; json_body := Some ∅ |}.

Definition not_modified : Response :=
  {| status_code := 304; text := EmptyString; json_body := None |}.

Definition server_error : Response :=
  {| status_code := 500; text := "Internal Server Error"; json_body := None |}.

Definition profile : Response :=
  {| status_code := 200; text := "{}";
     json_body := Some {[ "id" := VStr "abc123" ]} |}.

Definition new_token : pydict := {[ "access_token" := VStr "new-token" ]}.

(** An environment in which everything works, parameterised by the client
    identifier, the state the callback carries, and the answers of the
    identity and publishing endpoints. *)
Definition make_env (client_id : option string) (callback_state : string)
    (get_answer post_answer : outcome Response) : Env :=
  {| CLIENT_ID := client_id;
     CLIENT_SECRET := Some "secret";
     hash := λ s, Z.of_nat (String.length s);
     now := {| micros := 1700000000000000 |};
     str_datetime := λ d, pretty (micros d);
     str_local := λ d, pretty (micros d);
     make_authorization_url := λ base, (base +:+ "?state=xyz", "xyz");
     browser := λ _, None;
     pasted := "https://localhost:8080/callback?code=abc&state=" +:+ callback_state;
     callback_params := λ _, (Some "abc", Some callback_state);
     token_endpoint := λ _, Return new_token;
     http_get := λ _ _, get_answer;
     http_post := λ _ _ _ _, post_answer;
     json_dumps := λ _, "{}";
     json_error_is_request_exception := true |}.

Definition env_ok : Env := make_env (Some "client") "xyz" (Return profile) (Return created).
Definition env_304 : Env := make_env (Some "client") "xyz" (Return profile) (Return not_modified).
Definition env_500 : Env := make_env (Some "client") "xyz" (Return profile) (Return server_error).
Definition env_no_client : Env := make_env None "xyz" (Return profile) (Return created).
Definition env_bad_state : Env := make_env (Some "client") "forged" (Return profile) (Return created).

(** The globals at start-up when the environment file has no credential,
    and when it has one. *)
Definition w_fresh : World := initial_world None None.

Definition w_cred : World :=
  initial_world (Some "old-token") (Some "urn:li:person:old").

(** A world whose token dictionary is empty. *)
Definition w_no_token : World :=
  {| token_info := ∅; user_urn := Some "urn:li:person:old";
     scheduler := ∅; logs := []; stdout := []; trace := [] |}.

(** Instants after and before [now] of the environments above (timestamps
    1800000000, 1800000000.25 and 1600000000), and the last second of 1969
    at its start and half a second later. *)
Definition t_future : datetime := {| micros := 1800000000000000 |}.
Definition t_future_later : datetime := {| micros := 1800000000250000 |}.
Definition t_past : datetime := {| micros := 1600000000000000 |}.

End Examples.

(** ** The main block *)

(** [exit()] raises [SystemExit].  It is not an [Exception]; in the part of
    the main block modelled here no [except] clause is in its way. *)
Definition SystemExit : exn :=
  {| exn_classes := []; exn_str := EmptyString; exn_response := None |}.

Definition exit {A} : M A := raise SystemExit.

(** The first part of the main block: authenticate unless the environment
    file gave a token and a URN. *)
Definition main_authenticate (env : Env) : M unit :=
  token ← get_token_info ;
  urn ← get_user_urn ;
  if negb (py_truthy (dict_get "access_token" token)) || negb (truthy urn) then
    logging INFO "Access token or user URN not found in environment. Starting authentication flow." ;;
    authenticated ← perform_oauth_flow env ;
    if negb authenticated then
      logging CRITICAL "Authentication failed. Exiting." ;;
      exit
    else
      logging INFO "Authentication successful. You might want to restart the script after updating .env."
  else
    logging INFO "Access token and user URN loaded from environment.".

(** [d + timedelta(minutes=m)]. *)
Definition add_minutes (d : datetime) (m : Z) : datetime :=
  {| micros := micros d + m * 60000000 |}.

(** The second part of the main block: start the scheduler (the store of the
    model is that of a running scheduler) and submit the two example posts.
    The clock is read three times: [now_1] for the first trigger time,
    [stamp] is the second reading as [strftime] formats it, [now_3] for the
    second trigger time. *)
Definition main_schedule (env : Env) (now_1 : datetime) (stamp : string)
    (now_3 : datetime) : M unit :=
  logging INFO "Scheduler started. Ready to schedule posts. Press Ctrl+C to exit." ;;
  let schedule_time_1 := add_minutes now_1 1 in
  schedule_linkedin_post env (PyDatetime schedule_time_1)
    ("Hello from my Python scheduler! This post was scheduled at " +:+ stamp +:+ ".") ;;
  let schedule_time_2 := add_minutes now_3 5 in
  schedule_linkedin_post env (PyDatetime schedule_time_2)
    "This is a second scheduled post to LinkedIn via Python and APScheduler. #Python #Automation #LinkedInAPI" ;;
  mret tt.

(** The main block up to its polling loop. *)
Definition main (env : Env) (now_1 : datetime) (stamp : string) (now_3 : datetime)
  : M unit :=
  main_authenticate env ;;
  main_schedule env now_1 stamp now_3.

(** ** Further vocabulary *)

(** The profile endpoint, and the session [perform_oauth_flow] hands to
    [get_profile_info] once it holds [token]. *)
Definition profile_url : string := API_BASE_URL +:+ "me".

Definition token_session (env : Env) (token : pydict) : OAuth2Session :=
  {| session_client_id := CLIENT_ID env;
     session_redirect_uri := REDIRECT_URI;
     session_scope := SCOPES;
     session_token := Some token;
     session_state := Some (issued_state env) |}.

(** The authorization URL [perform_oauth_flow] shows. *)
Definition issued_url (env : Env) : string :=
  (make_authorization_url env AUTHORIZATION_URL).1.

(** The calls of a complete run of [perform_oauth_flow], in order; the last
    is made only with a token. *)
Definition flow_calls (env : Env) : list event :=
  [ EAuthorizationUrl (get_oauth_session env None) (issued_url env);
    EBrowserOpen (issued_url env);
    EInput "Paste the full redirect URL from your browser after authorizing: ";
    EFetchToken (flow_session env) ACCESS_TOKEN_URL (CLIENT_SECRET env) (pasted env) ]
  ++ match exchanged_token env with
     | Some token => [EGet (token_session env token) profile_url]
     | None => []
     end.

(** An event is a POST. *)
Definition is_post (ev : event) : bool :=
  match ev with
  | EPost _ _ _ _ => true
  | _ => false
  end.

(** Every job of the store was made by [schedule_linkedin_post] and sits
    under its own identifier. *)
Definition script_store (env : Env) (s : gmap string Job) : Prop :=
  ∀ id job, s !! id = Some job →
    ∃ d text_content, job = job_of env d text_content ∧ id = job_id job.

(** The four lines [list_scheduled_posts] prints for a job, with [content]
    on the content line. *)
Definition block_of (env : Env) (job : Job) (content : string) : list string :=
  [ "ID: " +:+ job_id job;
    "  Run Time (Local): " +:+ match job_next_run_time job with
                               | Some t => str_local env t
                               | None => "N/A"
                               end;
    "  Content: " +:+ content;
    "--------------------" ].

(** Environments that differ from a given one in one oracle. *)
Definition with_browser (env : Env) (b : string → option exn) : Env :=
  {| CLIENT_ID := CLIENT_ID env; CLIENT_SECRET := CLIENT_SECRET env;
     hash := hash env; now := now env;
     str_datetime := str_datetime env; str_local := str_local env;
     make_authorization_url := make_authorization_url env;
     browser := b;
     pasted := pasted env; callback_params := callback_params env;
     token_endpoint := token_endpoint env;
     http_get := http_get env; http_post := http_post env;
     json_dumps := json_dumps env;
     json_error_is_request_exception := json_error_is_request_exception env |}.

Definition with_pasted (env : Env) (s : string) : Env :=
  {| CLIENT_ID := CLIENT_ID env; CLIENT_SECRET := CLIENT_SECRET env;
     hash := hash env; now := now env;
     str_datetime := str_datetime env; str_local := str_local env;
     make_authorization_url := make_authorization_url env;
     browser := browser env;
     pasted := s; callback_params := callback_params env;
     token_endpoint := token_endpoint env;
     http_get := http_get env; http_post := http_post env;
     json_dumps := json_dumps env;
     json_error_is_request_exception := json_error_is_request_exception env |}.

(** ** Stages of the functions, for the proofs *)

(** The log records of [get_profile_info]'s handler for [e]. *)
Definition profile_error_logs (e : exn) : list (level * string) :=
  (ERROR, "Error fetching profile info: " +:+ exn_str e)
  :: match exn_response e with
     | Some r => [(ERROR, "Response Content: " +:+ text r)]
     | None => []
     end.

(** The log records of [post_linkedin_update]'s handlers for [e]. *)
Definition post_error_logs (env : Env) (e : exn) : list (level * string) :=
  if isinstance e RequestException then
    (ERROR, "Error posting to LinkedIn: " +:+ exn_str e)
    :: match exn_response e with
       | Some r =>
           [(ERROR, match json_body r with
                    | Some d => "API Error Details: " +:+ json_dumps env d
                    | None => "Response Content: " +:+ text r
                    end)]
       | None => []
       end
  else [(ERROR, "An unexpected error occurred during posting: " +:+ exn_str e)].

(** World [w] after the lines [ls] were printed. *)
Definition print_lines (ls : list string) (w : World) : World :=
  {| token_info := token_info w; user_urn := user_urn w; scheduler := scheduler w;
     logs := logs w; stdout := stdout w ++ ls; trace := trace w |}.

(** The content line of a job as [list_scheduled_posts] computes it. *)
Definition listed_content (job : Job) : string :=
  default "N/A" (job_kwargs job !! "text_content").

(** Everything [list_scheduled_posts] prints for the jobs [jobs]. *)
Definition listing_lines (env : Env) (jobs : list Job) : list string :=
  match jobs with
  | [] => ["No posts currently scheduled."]
  | _ => ["--- Scheduled Posts ---"]
         ++ concat ((λ job, block_of env job (listed_content job)) <$> jobs)
         ++ ["-----------------------" +:+ NL]
  end.

(** The warning [perform_oauth_flow] logs when the browser cannot be opened. *)
Definition browser_logs (env : Env) : list (level * string) :=
  match browser env (issued_url env) with
  | Some e => [(WARNING, "Could not open browser automatically: " +:+ exn_str e
                         +:+ ". Please copy the URL manually.")]
  | None => []
  end.

(** World [w] once the operator has been asked for the redirect URL. *)
Definition after_prompt (env : Env) (w : World) : World :=
  {| token_info := token_info w; user_urn := user_urn w; scheduler := scheduler w;
     logs := logs w ++ browser_logs env;
     stdout := stdout w ++
       [ "Please go to this URL and authorize the application:" +:+ NL +:+ issued_url env;
         NL +:+ "Opening browser..." ];
     trace := trace w ++
       [ EAuthorizationUrl (get_oauth_session env None) (issued_url env);
         EBrowserOpen (issued_url env);
         EInput "Paste the full redirect URL from your browser after authorizing: " ] |}.

(** World [w] once the token request has been made. *)
Definition after_fetch (env : Env) (w : World) : World :=
  add_event (EFetchToken (flow_session env) ACCESS_TOKEN_URL (CLIENT_SECRET env)
               (pasted env)) (after_prompt env w).

(** The end of [perform_oauth_flow], from what [get_profile_info] gave. *)
Definition flow_finish (token : pydict) (r : outcome (option pydict) * World)
  : outcome bool * World :=
  match r with
  | (Return (Some profile), w) =>
      if dict_truthy profile && dict_has "id" profile then
        let urn := "urn:li:person:" +:+ py_str (dict_get "id" profile) in
        (Return true,
         print_lines
           [ NL +:+ "--- Authentication Successful ---";
             "Your Access Token: " +:+ py_str (dict_get "access_token" token);
             "Your User URN: " +:+ urn;
             "RECOMMENDATION: Update your .env file with these values to avoid authenticating next time.";
             "--------------------------------" +:+ NL ]
           (add_log INFO ("Obtained user URN: " +:+ urn) (with_user_urn (Some urn) w)))
      else (Return false,
            add_log ERROR "Could not retrieve user URN after authentication." w)
  | (Return None, w) =>
      (Return false, add_log ERROR "Could not retrieve user URN after authentication." w)
  | (Raise e, w) =>
      (Return false,
       add_log ERROR ("Error during token fetch or profile info retrieval: " +:+ exn_str e) w)
  end.

(** Two worlds that differ at most in their log records. *)
Definition same_but_logs (w1 w2 : World) : Prop :=
  token_info w1 = token_info w2 ∧ user_urn w1 = user_urn w2 ∧
  scheduler w1 = scheduler w2 ∧ stdout w1 = stdout w2 ∧ trace w1 = trace w2.

(** The character [c] occurs in [s]. *)
Fixpoint occurs (c : Ascii.ascii) (s : string) : Prop :=
  match s with
  | EmptyString => False
  | String c' s' => c = c' ∨ occurs c s'
  end.

(** The separator of the parts of a job identifier. *)
Definition underscore : Ascii.ascii := Ascii.ascii_of_nat 95.

Module Scenarios.

(** A connection that cannot be made, and a failure inside the library. *)
Definition connection_error : exn :=
  {| exn_classes := [RequestException];
     exn_str := "Connection aborted.";
     exn_response := None |}.

Definition token_expired : exn :=
  {| exn_classes := []; exn_str := "(token_expired)"; exn_response := None |}.

Definition no_browser : exn :=
  {| exn_classes := []; exn_str := "could not locate runnable browser";
     exn_response := None |}.

Definition bad_request : Response :=
  {| status_code := 400; text := "{ }";
     json_body := Some {[ "message" := VStr "Empty commentary" ]} |}.

Definition html_page : Response :=
  {| status_code := 200; text := "<html></html>"; json_body := None |}.

Definition env_unreachable : Env :=
  Examples.make_env (Some "client") "xyz" (Raise connection_error) (Raise connection_error).

Definition env_expired : Env :=
  Examples.make_env (Some "client") "xyz" (Raise token_expired) (Raise token_expired).

Definition env_400 : Env :=
  Examples.make_env (Some "client") "xyz" (Return Examples.profile) (Return bad_request).

Definition env_html : Env :=
  Examples.make_env (Some "client") "xyz" (Return html_page) (Return Examples.created).

Definition env_no_browser : Env :=
  with_browser Examples.env_ok (λ _, Some no_browser).

Definition env_nothing_pasted : Env := with_pasted Examples.env_ok EmptyString.

(** A world with the job of one earlier submission. *)
Definition w_one_job : World :=
  (schedule_linkedin_post Examples.env_ok (PyDatetime Examples.t_future) "hello"
     Examples.w_cred).2.

End Scenarios.

(** * Properties *)

(** Runs the monad: unfolds binds, the primitive effects and the handler
    search, leaving the script's own conditionals. *)
Ltac run :=
  cbv [mbind mret M_bind M_ret bind ret raise lift_outcome logging print emit
       get_token_info get_user_urn get_scheduler set_token_info set_user_urn
       set_scheduler try_except find_handler].

(** ** Guards *)

Lemma truthy_false (o : option string) :
  truthy o = false ↔ o = None ∨ o = Some EmptyString.
Proof.
  destruct o as [s|]; simpl.
  - rewrite negb_false_iff, String.eqb_eq. split.
    + intros ->. by right.
    + intros [H | H]; [discriminate H | by injection H].
  - split; [by left | done].
Qed.

Lemma truthy_true (o : option string) :
  truthy o = true ↔ ∃ s, o = Some s ∧ s ≠ EmptyString.
Proof.
  destruct o as [s|]; simpl.
  - rewrite negb_true_iff, String.eqb_neq. split.
    + intros H. by exists s.
    + intros (s' & [= <-] & H). exact H.
  - split; [done | intros (s & H & _); discriminate H].
Qed.

Lemma dict_has_true k (d : pydict) : dict_has k d = true ↔ is_Some (d !! k).
Proof. unfold dict_has. apply bool_decide_eq_true. Qed.

Lemma dict_has_false k (d : pydict) : dict_has k d = false ↔ d !! k = None.
Proof. unfold dict_has. rewrite bool_decide_eq_false, eq_None_not_Some. done. Qed.

Lemma dict_truthy_false (d : pydict) : dict_truthy d = false ↔ d = ∅.
Proof. unfold dict_truthy. by rewrite negb_false_iff, bool_decide_eq_true. Qed.

Lemma dict_has_truthy k (d : pydict) : dict_has k d = true → dict_truthy d = true.
Proof.
  rewrite dict_has_true. intros [v Hv].
  destruct (dict_truthy d) eqn:E; [done|].
  apply dict_truthy_false in E. subst d. by rewrite lookup_empty in Hv.
Qed.

(** The token guard of [post_linkedin_update] fires exactly when the
    dictionary is empty or lacks the key. *)
Lemma token_guard (d : pydict) :
  negb (dict_truthy d) || negb (dict_has "access_token" d) = true ↔
  d = ∅ ∨ d !! "access_token" = None.
Proof.
  rewrite orb_true_iff, !negb_true_iff, dict_truthy_false, dict_has_false. done.
Qed.

Lemma credential_present_guards w :
  credential_present w →
  negb (dict_truthy (token_info w)) || negb (dict_has "access_token" (token_info w)) = false
  ∧ negb (truthy (user_urn w)) = false.
Proof.
  intros [Htok Hurn].
  apply dict_has_true in Htok. pose proof (dict_has_truthy _ _ Htok) as Ht.
  apply truthy_true in Hurn. by rewrite Ht, Htok, Hurn.
Qed.

Lemma credential_absent_or_present w : credential_absent w ∨ credential_present w.
Proof.
  unfold credential_absent, credential_present.
  destruct (token_info w !! "access_token") as [v|] eqn:Hk; [|by auto].
  destruct (truthy (user_urn w)) eqn:Hu.
  - right. split; [by eexists|]. by apply truthy_true.
  - apply truthy_false in Hu. left. right. right. exact Hu.
Qed.

(** The dictionary the script starts with always has the [access_token]
    key, whatever the environment, so the token guard of
    [post_linkedin_update] does not fire on it; the main block's own test
    looks at the value instead. *)
Remark initial_world_passes_token_guard token urn :
  negb (dict_truthy (token_info (initial_world token urn)))
  || negb (dict_has "access_token" (token_info (initial_world token urn))) = false.
Proof.
  apply not_true_iff_false. rewrite token_guard. cbn [token_info initial_world].
  intros [H | H].
  - apply (f_equal (λ d : pydict, d !! "access_token")) in H.
    rewrite lookup_singleton_eq, lookup_empty in H. discriminate H.
  - rewrite lookup_singleton_eq in H. discriminate H.
Qed.

Remark initial_world_needs_authentication urn :
  needs_authentication (initial_world None urn) = true.
Proof. reflexivity. Qed.

(** ** World bookkeeping *)

Lemma add_event_after_call ev w : add_event ev w = after_call w ev [].
Proof. unfold add_event, after_call. by rewrite app_nil_r. Qed.

Lemma add_log_after_call l msg w ev ls :
  add_log l msg (after_call w ev ls) = after_call w ev (ls ++ [(l, msg)]).
Proof. unfold add_log, after_call; simpl. by rewrite app_assoc. Qed.

Lemma isinstance_HTTPError r : isinstance (HTTPError r) RequestException = true.
Proof. reflexivity. Qed.

Lemma isinstance_json_decode_error env :
  isinstance (json_decode_error env) JSONDecodeError = true.
Proof. reflexivity. Qed.

Lemma error_status_bool r :
  (400 <=? status_code r) && (status_code r <? 600) = true ↔ error_status r.
Proof. unfold error_status. rewrite andb_true_iff, Z.leb_le, Z.ltb_lt. done. Qed.

(** ** [post_linkedin_update] *)

(** With either guard firing, the function logs the guard's error and
    returns [False]; nothing else changes. *)
Lemma post_guarded env text_content w :
  credential_absent w →
  ∃ msg, MissingCredential msg ∧
    post_linkedin_update env text_content w = (Return false, add_log ERROR msg w).
Proof.
  intros Habs. unfold post_linkedin_update. run.
  destruct (negb (dict_truthy (token_info w))
            || negb (dict_has "access_token" (token_info w))) eqn:Hg.
  - eexists. split; [by left | reflexivity].
  - destruct (negb (truthy (user_urn w))) eqn:Hu.
    + eexists. split; [by right | reflexivity].
    + exfalso. apply not_true_iff_false in Hg. rewrite token_guard in Hg.
      apply negb_false_iff, truthy_true in Hu as (s & Hs & Hne).
      destruct Habs as [H | [H | [H | H]]].
      * apply Hg. by left.
      * apply Hg. by right.
      * rewrite Hs in H. discriminate H.
      * rewrite Hs in H. injection H as ->. by apply Hne.
Qed.

Ltac settle b :=
  rewrite add_event_after_call, ?add_log_after_call; cbn [app];
  eexists b, _; split; [reflexivity|]; split; [done|]; repeat eexists.

(** With the credential present, the function makes its one call and turns
    the outcome into a boolean and log records. *)
Lemma post_sends env text_content w :
  credential_present w →
  ∃ b new_logs,
    post_linkedin_update env text_content w
      = (Return b, after_call w (post_request env w text_content) new_logs) ∧
    match post_outcome env w text_content with
    | Return r =>
        if (400 <=? status_code r) && (status_code r <? 600)
        then b = false ∧
             ∃ rest, new_logs =
               (ERROR, "Error posting to LinkedIn: " +:+ exn_str (HTTPError r)) :: rest
        else b = true ∧
             new_logs = [(INFO, "Successfully posted update to LinkedIn: '"
                                +:+ slice_to 50 text_content +:+ "...'")]
    | Raise e => b = false ∧ ∃ msg rest, new_logs = (ERROR, msg) :: rest
    end.
Proof.
  intros [Hg Hu]%credential_present_guards.
  unfold post_linkedin_update, post_outcome, post_request, session_post. run.
  rewrite Hg, Hu.
  destruct (http_post env _ _ _ _) as [r | e].
  - unfold raise_for_status.
    destruct ((400 <=? status_code r) && (status_code r <? 600)) eqn:Hs; run.
    + rewrite isinstance_HTTPError. cbn [exn_response HTTPError].
      unfold response_json. destruct (json_body r) as [d|]; run.
      * settle false.
      * rewrite isinstance_json_decode_error. settle false.
    + rewrite add_event_after_call, ?add_log_after_call; cbn [app].
      eexists true, _. split; [reflexivity|]. done.
  - destruct (isinstance e RequestException) eqn:He.
    + destruct (exn_response e) as [r|].
      * unfold response_json. destruct (json_body r) as [d|]; run.
        -- settle false.
        -- rewrite isinstance_json_decode_error. settle false.
      * settle false.
    + cbn [isinstance]. settle false.
Qed.

(** C2. For every text, when the credential is absent or empty (the token
    dictionary is empty or has no [access_token] entry, or [user_urn] is
    unset), [post_linkedin_update] returns [False], makes no call at all
    (the trace is unchanged), and its only effect is one error record whose
    message is one of the two missing-credential diagnostics. *)
Theorem post_linkedin_update_missing_credential env text_content w :
  credential_absent w →
  ∃ msg w',
    post_linkedin_update env text_content w = (Return false, w') ∧
    MissingCredential msg ∧
    w' = add_log ERROR msg w ∧
    trace w' = trace w.
Proof.
  intros Habs. destruct (post_guarded env text_content w Habs) as (msg & Hm & Heq).
  exists msg, (add_log ERROR msg w). by rewrite Heq.
Qed.

Lemma post_linkedin_update_missing_credential_witness :
  credential_absent Examples.w_no_token ∧
  ∃ msg w',
    post_linkedin_update Examples.env_ok "hello" Examples.w_no_token = (Return false, w') ∧
    MissingCredential msg ∧
    w' = add_log ERROR msg Examples.w_no_token ∧
    trace w' = trace Examples.w_no_token.
Proof.
  split; [left; reflexivity|].
  apply post_linkedin_update_missing_credential. left; reflexivity.
Defined.

(** C3, as stated, fails: a response that is neither 2xx nor 4xx/5xx is
    taken for a success.  With a credential present and the endpoint
    answering 304, [post_linkedin_update] returns [True]. *)
Lemma post_linkedin_update_304_is_success :
  credential_present Examples.w_cred ∧
  post_outcome Examples.env_304 Examples.w_cred "hello" = Return Examples.not_modified ∧
  ¬ (200 ≤ status_code Examples.not_modified < 300) ∧
  (post_linkedin_update Examples.env_304 "hello" Examples.w_cred).1 = Return true.
Proof.
  split; [|split; [reflexivity|split; [|reflexivity]]].
  - split; [by eexists|]. eexists; split; [reflexivity | discriminate].
  - simpl. lia.
Qed.

(** C3, amended.  For every text, with a credential present,
    [post_linkedin_update] makes exactly one call, the POST of the content,
    and nothing else leaves the script (no second attempt, no token
    request); the credential is left as it was.  A response whose status is
    not 4xx/5xx, so any 2xx, gives [True]; a 4xx/5xx response or an
    exception raised by the call gives [False] together with an error
    record. *)
Theorem post_linkedin_update_one_request env text_content w :
  credential_present w →
  ∃ b new_logs w',
    post_linkedin_update env text_content w = (Return b, w') ∧
    w' = after_call w (post_request env w text_content) new_logs ∧
    trace w' = (trace w ++ [post_request env w text_content])%list ∧
    token_info w' = token_info w ∧ user_urn w' = user_urn w ∧
    (∀ r, post_outcome env w text_content = Return r →
          200 ≤ status_code r < 300 → b = true) ∧
    (∀ r, post_outcome env w text_content = Return r →
          ¬ error_status r → b = true) ∧
    (∀ r, post_outcome env w text_content = Return r →
          error_status r → b = false ∧ ∃ msg, (ERROR, msg) ∈ new_logs) ∧
    (∀ e, post_outcome env w text_content = Raise e →
          b = false ∧ ∃ msg, (ERROR, msg) ∈ new_logs).
Proof.
  intros Hc. destruct (post_sends env text_content w Hc) as (b & ls & Heq & Hout).
  exists b, ls, (after_call w (post_request env w text_content) ls).
  do 5 (split; [done|]).
  destruct (post_outcome env w text_content) as [r | e].
  - destruct ((400 <=? status_code r) && (status_code r <? 600)) eqn:Hs.
    + apply error_status_bool in Hs. destruct Hout as (-> & rest & ->).
      split; [|split; [|split]].
      * intros r' [= <-] H2. unfold error_status in Hs. lia.
      * intros r' [= <-] Hn. done.
      * intros r' [= <-] _. split; [done|]. eexists. left.
      * intros e' [=].
    + apply not_true_iff_false in Hs. rewrite error_status_bool in Hs.
      destruct Hout as [-> ->].
      split; [|split; [|split]]; try done.
      intros r' [= <-] Hr. done.
  - destruct Hout as (-> & msg & rest & ->).
    split; [|split; [|split]]; try done.
    intros e' _. split; [done|]. eexists. left.
Qed.

Lemma post_linkedin_update_one_request_witness :
  credential_present Examples.w_cred ∧
  ∃ b new_logs w',
    post_linkedin_update Examples.env_500 "hello" Examples.w_cred = (Return b, w') ∧
    w' = after_call Examples.w_cred
           (post_request Examples.env_500 Examples.w_cred "hello") new_logs ∧
    trace w' = (trace Examples.w_cred
                  ++ [post_request Examples.env_500 Examples.w_cred "hello"])%list ∧
    b = false ∧ ∃ msg, (ERROR, msg) ∈ new_logs.
Proof.
  assert (credential_present Examples.w_cred) as Hc.
  { split; [by eexists|]. eexists; split; [reflexivity | discriminate]. }
  split; [exact Hc|].
  destruct (post_linkedin_update_one_request Examples.env_500 "hello" Examples.w_cred Hc)
    as (b & ls & w' & Heq & Hw & Ht & _ & _ & _ & _ & Herr & _).
  exists b, ls, w'. do 3 (split; [assumption|]).
  apply (Herr Examples.server_error); [reflexivity|].
  unfold error_status. simpl. lia.
Defined.

(** C5, as stated, fails: the script has no check on the text.  With a
    credential present, [post_linkedin_update] called with the empty text
    makes the POST, carrying the empty text, and here returns [True]. *)
Lemma post_linkedin_update_empty_text_is_sent :
  credential_present Examples.w_cred ∧
  (post_linkedin_update Examples.env_ok EmptyString Examples.w_cred).1 = Return true ∧
  trace (post_linkedin_update Examples.env_ok EmptyString Examples.w_cred).2
    = [post_request Examples.env_ok Examples.w_cred EmptyString] ∧
  logs (post_linkedin_update Examples.env_ok EmptyString Examples.w_cred).2
    = [(INFO, "Successfully posted update to LinkedIn: '...'")].
Proof.
  split; [|split; [reflexivity|split; reflexivity]].
  split; [by eexists|]. eexists; split; [reflexivity | discriminate].
Qed.

(** C5, amended.  The empty text is not rejected: for every present
    credential, [post_linkedin_update] called with the empty text makes its
    one call, the POST whose commentary is the empty text, and returns
    [True] exactly when the call returns a response that is not 4xx/5xx. *)
Theorem post_linkedin_update_empty_text env w :
  credential_present w →
  ∃ b new_logs url headers body,
    post_linkedin_update env EmptyString w
      = (Return b, after_call w (EPost (get_oauth_session env (Some (token_info w)))
                                   url headers body) new_logs) ∧
    shareCommentary_text body = EmptyString ∧
    (b = true ↔ ∃ r, post_outcome env w EmptyString = Return r ∧ ¬ error_status r).
Proof.
  intros Hc. destruct (post_sends env EmptyString w Hc) as (b & ls & Heq & Hout).
  exists b, ls. do 3 eexists. split; [exact Heq|]. split; [reflexivity|].
  destruct (post_outcome env w EmptyString) as [r | e].
  - destruct ((400 <=? status_code r) && (status_code r <? 600)) eqn:Hs.
    + apply error_status_bool in Hs. destruct Hout as (-> & _).
      split; [done|]. intros (r' & [= <-] & Hn). done.
    + apply not_true_iff_false in Hs. rewrite error_status_bool in Hs.
      destruct Hout as [-> _]. split; [|done]. intros _. by exists r.
  - destruct Hout as (-> & _). split; [done|]. intros (r & [=] & _).
Qed.

Lemma post_linkedin_update_empty_text_witness :
  credential_present Examples.w_cred ∧
  ∃ b new_logs url headers body,
    post_linkedin_update Examples.env_ok EmptyString Examples.w_cred
      = (Return b, after_call Examples.w_cred
                     (EPost (get_oauth_session Examples.env_ok
                               (Some (token_info Examples.w_cred)))
                        url headers body) new_logs) ∧
    shareCommentary_text body = EmptyString ∧
    (b = true ↔ ∃ r, post_outcome Examples.env_ok Examples.w_cred EmptyString = Return r
                     ∧ ¬ error_status r).
Proof.
  assert (credential_present Examples.w_cred) as Hc.
  { split; [by eexists|]. eexists; split; [reflexivity | discriminate]. }
  split; [exact Hc|].
  exact (post_linkedin_update_empty_text Examples.env_ok Examples.w_cred Hc).
Defined.



(** ** [schedule_linkedin_post] and [list_scheduled_posts] *)

(** A datetime is accepted whatever it is: the job is stored under its
    derived identifier, replacing a job with that identifier if there is
    one, and [None] is returned. *)
Lemma schedule_datetime env d text_content w :
  schedule_linkedin_post env (PyDatetime d) text_content w
    = (Return PyNone, after_schedule env d text_content w).
Proof.
  unfold schedule_linkedin_post, add_job, after_schedule, schedule_logs. run.
  destruct (dt_ltb d (now env)); cbn [add_log scheduler]; cbn [job_id job_of];
    destruct (scheduler w !! _);
    unfold add_log, with_scheduler; cbn; by rewrite <- ?app_assoc.
Qed.


(** Any number of identical submissions, at least one, leaves the job store
    as one submission does. *)
Lemma resubmit_scheduler env d text_content n w :
  ∃ w', resubmit env (S n) (PyDatetime d) text_content w = (Return tt, w') ∧
        scheduler w' = <[derive_job_id env d text_content := job_of env d text_content]>
                         (scheduler w) ∧
        stdout w' = stdout w ∧ trace w' = trace w ∧
        token_info w' = token_info w ∧ user_urn w' = user_urn w.
Proof.
  revert w. induction n as [|n IH]; intros w.
  - exists (after_schedule env d text_content w).
    cbn [resubmit]. run. rewrite schedule_datetime. done.
  - destruct (IH (after_schedule env d text_content w))
      as (w' & Heq & Hs & Ho & Ht & Hk & Hu).
    exists w'. split.
    + change (resubmit env (S (S n)) (PyDatetime d) text_content)
        with (schedule_linkedin_post env (PyDatetime d) text_content ;;
              resubmit env (S n) (PyDatetime d) text_content).
      run. rewrite schedule_datetime. exact Heq.
    + rewrite Hs, Ho, Ht, Hk, Hu. cbn. by rewrite insert_insert_eq.
Qed.

(** With a single job in the store, [list_scheduled_posts] prints one block,
    whose content line shows the [text_content] keyword argument of the
    job, or N/A when the job has none. *)
Lemma list_single_job env id job w :
  scheduler w = {[ id := job ]} →
  job_next_run_time job = Some (job_run_date job) →
  ∃ w', list_scheduled_posts env w = (Return tt, w') ∧
        stdout w' = (stdout w ++ listing_of env job
                       (default "N/A" (job_kwargs job !! "text_content")))%list ∧
        scheduler w' = scheduler w.
Proof.
  intros Hs Hn. unfold list_scheduled_posts, get_jobs. run.
  rewrite Hs, map_to_list_singleton. cbn [fmap list_fmap snd for_each print_job].
  unfold print_job. run. rewrite Hn. eexists. split; [reflexivity|].
  unfold listing_of. cbn. by rewrite <- !app_assoc.
Qed.

(** C1.  The job store does what the claim says: after any number (at
    least one) of identical submissions into an empty store there is
    exactly one job, run at the given time with the given text as its
    argument.  The listing does not: [list_scheduled_posts] prints that one
    job with the content line N/A, because it looks the text up among the
    job's keyword arguments while [schedule_linkedin_post] passed it as a
    positional argument. *)
Theorem listing_after_resubmission env d text_content n w :
  scheduler w = ∅ →
  ∃ w1 w2,
    resubmit env (S n) (PyDatetime d) text_content w = (Return tt, w1) ∧
    scheduler w1 = {[ derive_job_id env d text_content := job_of env d text_content ]} ∧
    job_run_date (job_of env d text_content) = d ∧
    job_args (job_of env d text_content) = [text_content] ∧
    list_scheduled_posts env w1 = (Return tt, w2) ∧
    stdout w2 = (stdout w ++ listing_of env (job_of env d text_content) "N/A")%list.
Proof.
  intros Hempty.
  destruct (resubmit_scheduler env d text_content n w) as (w1 & Heq & Hs & Ho & _).
  rewrite Hempty, insert_empty in Hs.
  destruct (list_single_job env _ _ w1 Hs eq_refl) as (w2 & Hl & Hout & _).
  exists w1, w2. do 4 (split; [done|]). split; [done|].
  rewrite Hout, Ho. cbn [job_kwargs job_of]. by rewrite lookup_empty.
Qed.

Lemma listing_after_resubmission_witness :
  scheduler Examples.w_fresh = ∅ ∧
  ∃ w1 w2,
    resubmit Examples.env_ok 2 (PyDatetime Examples.t_future) "hello" Examples.w_fresh
      = (Return tt, w1) ∧
    size (scheduler w1) = 1%nat ∧
    list_scheduled_posts Examples.env_ok w1 = (Return tt, w2) ∧
    stdout w2 = [ "--- Scheduled Posts ---";
                  "ID: linkedin_post_1800000000_5";
                  "  Run Time (Local): 1800000000000000";
                  "  Content: N/A";
                  "--------------------";
                  "-----------------------" +:+ NL ].
Proof.
  split; [reflexivity|].
  destruct (listing_after_resubmission Examples.env_ok Examples.t_future "hello" 1
              Examples.w_fresh eq_refl) as (w1 & w2 & Heq & Hs & _ & _ & Hl & Hout).
  exists w1, w2. split; [exact Heq|]. split.
  - rewrite Hs. apply map_size_singleton.
  - split; [exact Hl|]. rewrite Hout. reflexivity.
Defined.








(** C10.  When [post_time] is not a datetime, [schedule_linkedin_post] logs
    an error and returns [None]; that log record is its only effect, so the
    job store is unchanged. *)
Theorem schedule_linkedin_post_rejects_non_datetime env post_time text_content w :
  (∀ d, post_time ≠ PyDatetime d) →
  ∃ w',
    schedule_linkedin_post env post_time text_content w = (Return PyNone, w') ∧
    w' = add_log ERROR "Invalid post_time provided. It must be a datetime object." w ∧
    scheduler w' = scheduler w.
Proof.
  intros Hnot. eexists. split; [|split; reflexivity].
  destruct post_time as [| s | z | d]; try reflexivity.
  by destruct (Hnot d).
Qed.

Lemma schedule_linkedin_post_rejects_non_datetime_witness :
  (∀ d, PyStr "2030-01-01 09:00" ≠ PyDatetime d) ∧
  ∃ w',
    schedule_linkedin_post Examples.env_ok (PyStr "2030-01-01 09:00") "hello"
      Examples.w_cred = (Return PyNone, w') ∧
    w' = add_log ERROR "Invalid post_time provided. It must be a datetime object."
           Examples.w_cred ∧
    scheduler w' = scheduler Examples.w_cred.
Proof.
  split; [discriminate|].
  apply schedule_linkedin_post_rejects_non_datetime. discriminate.
Defined.

(** ** [perform_oauth_flow] *)

Lemma flow_session_eq env url st :
  make_authorization_url env AUTHORIZATION_URL = (url, st) →
  {| session_client_id := CLIENT_ID env; session_redirect_uri := REDIRECT_URI;
     session_scope := SCOPES; session_token := None; session_state := Some st |}
  = flow_session env.
Proof. intros H. unfold flow_session, issued_state. by rewrite H. Qed.

(** [get_profile_info] writes log records and makes its call; the
    credential and the job store are not touched, and a profile it returns
    is the JSON body of the response. *)
Lemma get_profile_info_preserves env s w :
  token_info (get_profile_info env s w).2 = token_info w ∧
  user_urn (get_profile_info env s w).2 = user_urn w ∧
  scheduler (get_profile_info env s w).2 = scheduler w.
Proof.
  unfold get_profile_info, session_get, raise_for_status, response_json. run.
  destruct (http_get env s _) as [r | e].
  - destruct ((400 <=? status_code r) && (status_code r <? 600)).
    + cbn [isinstance HTTPError exn_classes exn_response].
      rewrite bool_decide_eq_true_2 by left. done.
    + destruct (json_body r); [done|].
      destruct (isinstance (json_decode_error env) RequestException); done.
  - destruct (isinstance e RequestException); [|done].
    destruct (exn_response e); done.
Qed.

Ltac profile_step env s w0 :=
  let o := fresh "o" in let w1 := fresh "w" in let Hp := fresh "Hp" in
  let Ht := fresh "Ht" in let Hu := fresh "Hu" in let Hs := fresh "Hs" in
  destruct (get_profile_info_preserves env s w0) as (Ht & Hu & Hs);
  destruct (get_profile_info env s w0) as [o w1] eqn:Hp;
  cbn in Ht, Hu, Hs;
  destruct o as [[profile|] | e];
  [ destruct (dict_truthy profile && dict_has "id" profile) eqn:Hid | | ].

Lemma perform_oauth_flow_cases env w :
  ∃ b w',
    perform_oauth_flow env w = (Return b, w') ∧
    scheduler w' = scheduler w ∧
    if b then
      ∃ token profile,
        exchanged_token env = Some token ∧ token_info w' = token ∧
        is_Some (profile !! "id") ∧
        user_urn w' = Some ("urn:li:person:" +:+ py_str (dict_get "id" profile))
    else
      user_urn w' = user_urn w ∧
      token_info w' = default (token_info w) (exchanged_token env).
Proof.
  unfold perform_oauth_flow, exchanged_token.
  destruct (negb (truthy (CLIENT_ID env)) || negb (truthy (CLIENT_SECRET env))).
  { eexists false, _. split; [reflexivity|]. done. }
  unfold authorization_url, webbrowser_open, input, fetch_token.
  destruct (make_authorization_url env AUTHORIZATION_URL) as [url st] eqn:Hurl.
  run. cbn [get_oauth_session session_client_id session_redirect_uri session_scope session_token].
  rewrite (flow_session_eq env url st Hurl).
  cbn [isinstance].
  destruct (browser env url) as [eb|];
  (destruct (String.eqb (pasted env) EmptyString);
   [ eexists false, _; split; [reflexivity|]; done |]);
  (destruct (fetch_token_result env (flow_session env) (pasted env)) as [token | e];
   [| eexists false, _; split; [reflexivity|]; done ]).
  - match goal with |- context [get_profile_info env ?s ?w0] => profile_step env s w0 end.
    + eexists true, _. split; [reflexivity|]. cbn. split; [done|].
      exists token, profile. apply andb_true_iff in Hid as [_ Hid].
      apply bool_decide_eq_true in Hid. done.
    + eexists false, _. split; [reflexivity|]. cbn. rewrite Ht, Hu, Hs. done.
    + eexists false, _. split; [reflexivity|]. cbn. rewrite Ht, Hu, Hs. done.
    + eexists false, _. split; [reflexivity|]. cbn. rewrite Ht, Hu, Hs. done.
  - match goal with |- context [get_profile_info env ?s ?w0] => profile_step env s w0 end.
    + eexists true, _. split; [reflexivity|]. cbn. split; [done|].
      exists token, profile. apply andb_true_iff in Hid as [_ Hid].
      apply bool_decide_eq_true in Hid. done.
    + eexists false, _. split; [reflexivity|]. cbn. rewrite Ht, Hu, Hs. done.
    + eexists false, _. split; [reflexivity|]. cbn. rewrite Ht, Hu, Hs. done.
    + eexists false, _. split; [reflexivity|]. cbn. rewrite Ht, Hu, Hs. done.
Qed.


(** C7.  When the client identifier or the client secret is missing (unset
    or empty), [perform_oauth_flow] returns [False] and its only effect is
    the error record of the configuration guard: the trace is unchanged, so
    no authorization URL was built and no endpoint contacted. *)
Theorem perform_oauth_flow_missing_client_config env w :
  truthy (CLIENT_ID env) = false ∨ truthy (CLIENT_SECRET env) = false →
  ∃ w',
    perform_oauth_flow env w = (Return false, w') ∧
    w' = add_log ERROR MissingClientConfig w ∧
    trace w' = trace w ∧ stdout w' = stdout w.
Proof.
  intros H. unfold perform_oauth_flow.
  assert (negb (truthy (CLIENT_ID env)) || negb (truthy (CLIENT_SECRET env)) = true) as ->.
  { destruct H as [-> | ->]; cbn [negb orb]; [done | apply orb_true_r]. }
  eexists. split; [reflexivity|]. done.
Qed.

Lemma perform_oauth_flow_missing_client_config_witness :
  (truthy (CLIENT_ID Examples.env_no_client) = false
   ∨ truthy (CLIENT_SECRET Examples.env_no_client) = false) ∧
  ∃ w',
    perform_oauth_flow Examples.env_no_client Examples.w_fresh = (Return false, w') ∧
    w' = add_log ERROR MissingClientConfig Examples.w_fresh ∧
    trace w' = trace Examples.w_fresh ∧ stdout w' = stdout Examples.w_fresh.
Proof.
  split; [left; reflexivity|].
  apply perform_oauth_flow_missing_client_config. left; reflexivity.
Defined.




(** * Further properties *)

(** ** [get_profile_info] *)

Lemma isinstance_json_decode_error_request env :
  isinstance (json_decode_error env) RequestException
    = json_error_is_request_exception env.
Proof. unfold json_decode_error. by destruct (json_error_is_request_exception env). Qed.

(** What [get_profile_info] does, by the answer to its GET. *)
Lemma get_profile_info_run env s w :
  get_profile_info env s w =
    match http_get env s profile_url with
    | Return r =>
        if (400 <=? status_code r) && (status_code r <? 600)
        then (Return None,
              after_call w (EGet s profile_url) (profile_error_logs (HTTPError r)))
        else match json_body r with
             | Some d => (Return (Some d), after_call w (EGet s profile_url) [])
             | None =>
                 if json_error_is_request_exception env
                 then (Return None, after_call w (EGet s profile_url)
                                      (profile_error_logs (json_decode_error env)))
                 else (Raise (json_decode_error env), after_call w (EGet s profile_url) [])
             end
    | Raise e =>
        if isinstance e RequestException
        then (Return None, after_call w (EGet s profile_url) (profile_error_logs e))
        else (Raise e, after_call w (EGet s profile_url) [])
    end.
Proof.
  unfold get_profile_info, session_get, raise_for_status, response_json, profile_url,
    profile_error_logs. run.
  rewrite add_event_after_call.
  destruct (http_get env s _) as [r | e].
  - destruct ((400 <=? status_code r) && (status_code r <? 600)).
    + rewrite isinstance_HTTPError. cbn [exn_response HTTPError].
      by rewrite !add_log_after_call.
    + destruct (json_body r) as [d|]; [done|].
      rewrite isinstance_json_decode_error_request.
      destruct (json_error_is_request_exception env); [|done].
      cbn [exn_response json_decode_error]. by rewrite !add_log_after_call.
  - destruct (isinstance e RequestException); [|done].
    destruct (exn_response e); by rewrite !add_log_after_call.
Qed.

(** The world [get_profile_info] leaves: its one call and some log records. *)
Lemma get_profile_info_world env s w :
  ∃ ls, (get_profile_info env s w).2 = after_call w (EGet s profile_url) ls.
Proof.
  rewrite get_profile_info_run.
  destruct (http_get env s profile_url) as [r | e].
  - destruct (_ && _); [by eexists|]. destruct (json_body r); [by eexists|].
    destruct (json_error_is_request_exception env); by eexists.
  - destruct (isinstance e RequestException); by eexists.
Qed.

(** The value [get_profile_info] gives does not depend on the world. *)
Lemma get_profile_info_value env s w w' :
  (get_profile_info env s w).1 = (get_profile_info env s w').1.
Proof.
  rewrite !get_profile_info_run.
  destruct (http_get env s profile_url) as [r | e].
  - destruct (_ && _); [done|]. destruct (json_body r); [done|].
    by destruct (json_error_is_request_exception env).
  - by destruct (isinstance e RequestException).
Qed.

(** X1.  Whatever the answer, [get_profile_info] makes exactly one call, the
    GET of the profile endpoint with the session it was given, and touches
    neither the credential, nor the job store, nor the standard output. *)
Theorem get_profile_info_one_get env s w :
  trace (get_profile_info env s w).2 = (trace w ++ [EGet s (API_BASE_URL +:+ "me")])%list ∧
  token_info (get_profile_info env s w).2 = token_info w ∧
  user_urn (get_profile_info env s w).2 = user_urn w ∧
  scheduler (get_profile_info env s w).2 = scheduler w ∧
  stdout (get_profile_info env s w).2 = stdout w.
Proof. by destruct (get_profile_info_world env s w) as [ls ->]. Qed.

(** X2.  [get_profile_info] returns a profile exactly when the GET returns a
    response that is not 4xx/5xx and whose body is a JSON object; the
    profile is that object. *)
Theorem get_profile_info_returns_profile env s w profile :
  (get_profile_info env s w).1 = Return (Some profile) ↔
  ∃ r, http_get env s (API_BASE_URL +:+ "me") = Return r ∧
       ¬ error_status r ∧ json_body r = Some profile.
Proof.
  rewrite get_profile_info_run. fold profile_url.
  destruct (http_get env s profile_url) as [r | e].
  - destruct (_ && _) eqn:Hs.
    + apply error_status_bool in Hs. split; [done|]. by intros (r' & [= <-] & Hn & _).
    + apply not_true_iff_false in Hs. rewrite error_status_bool in Hs.
      destruct (json_body r) as [d|] eqn:Hj.
      * split.
        -- intros [= ->]. by exists r.
        -- intros (r' & [= <-] & _ & Hd). rewrite Hj in Hd. by injection Hd as ->.
      * split.
        -- by destruct (json_error_is_request_exception env).
        -- intros (r' & [= <-] & _ & Hd). by rewrite Hj in Hd.
  - split.
    + by destruct (isinstance e RequestException).
    + by intros (r & [=] & _).
Qed.

Lemma get_profile_info_returns_profile_witness :
  (get_profile_info Examples.env_ok (get_oauth_session Examples.env_ok None)
     Examples.w_cred).1 = Return (Some {[ "id" := VStr "abc123" ]}).
Proof.
  apply get_profile_info_returns_profile. exists Examples.profile.
  split; [reflexivity|]. split; [|reflexivity]. unfold error_status. simpl. lia.
Defined.

(** X3.  [get_profile_info] is not total: it raises exactly when the GET
    raises an exception that is not a [RequestException], which it passes
    on, or when the body of a good response is not JSON and the decoding
    error is not a [RequestException]. *)
Theorem get_profile_info_raises env s w e :
  (get_profile_info env s w).1 = Raise e ↔
  (http_get env s (API_BASE_URL +:+ "me") = Raise e ∧ isinstance e RequestException = false) ∨
  (∃ r, http_get env s (API_BASE_URL +:+ "me") = Return r ∧ ¬ error_status r ∧
        json_body r = None ∧ json_error_is_request_exception env = false ∧
        e = json_decode_error env).
Proof.
  rewrite get_profile_info_run. fold profile_url.
  destruct (http_get env s profile_url) as [r | e'].
  - destruct (_ && _) eqn:Hs.
    + apply error_status_bool in Hs. split; [done|].
      intros [[[=] _] | (r' & [= <-] & Hn & _)]. done.
    + apply not_true_iff_false in Hs. rewrite error_status_bool in Hs.
      destruct (json_body r) as [d|] eqn:Hj.
      * split; [done|]. intros [[[=] _] | (r' & [= <-] & _ & Hd & _)].
        by rewrite Hj in Hd.
      * destruct (json_error_is_request_exception env) eqn:Hf.
        -- split; [done|]. intros [[[=] _] | (r' & _ & _ & _ & [=] & _)].
        -- split.
           ++ intros [= <-]. right. by exists r.
           ++ intros [[[=] _] | (r' & _ & _ & _ & _ & ->)]. done.
  - destruct (isinstance e' RequestException) eqn:Hi.
    + split; [done|]. intros [[[= ->] Hf] | (r & [=] & _)]. congruence.
    + split.
      * intros [= ->]. by left.
      * intros [[[= ->] _] | (r & [=] & _)]. done.
Qed.

Lemma get_profile_info_raises_witness :
  (get_profile_info Scenarios.env_expired (get_oauth_session Scenarios.env_expired None)
     Examples.w_cred).1 = Raise Scenarios.token_expired.
Proof. apply get_profile_info_raises. left. split; reflexivity. Defined.



(** ** [post_linkedin_update], further *)

(** What [post_linkedin_update] does with a credential present, by the
    outcome of its call. *)
Lemma post_run env text_content w :
  credential_present w →
  post_linkedin_update env text_content w =
    match post_outcome env w text_content with
    | Return r =>
        if (400 <=? status_code r) && (status_code r <? 600)
        then (Return false, after_call w (post_request env w text_content)
                              (post_error_logs env (HTTPError r)))
        else (Return true, after_call w (post_request env w text_content)
                [(INFO, "Successfully posted update to LinkedIn: '"
                        +:+ slice_to 50 text_content +:+ "...'")])
    | Raise e => (Return false, after_call w (post_request env w text_content)
                                  (post_error_logs env e))
    end.
Proof.
  intros [Hg Hu]%credential_present_guards.
  unfold post_linkedin_update, post_outcome, post_request, session_post, post_error_logs.
  run. rewrite Hg, Hu, add_event_after_call.
  destruct (http_post env _ _ _ _) as [r | e].
  - unfold raise_for_status.
    destruct ((400 <=? status_code r) && (status_code r <? 600)); run.
    + rewrite isinstance_HTTPError. cbn [exn_response HTTPError].
      unfold response_json. destruct (json_body r) as [d|]; run.
      * by rewrite !add_log_after_call.
      * rewrite isinstance_json_decode_error. by rewrite !add_log_after_call.
    + by rewrite !add_log_after_call.
  - destruct (isinstance e RequestException) eqn:He.
    + destruct (exn_response e) as [r|].
      * unfold response_json. destruct (json_body r) as [d|]; run.
        -- by rewrite !add_log_after_call.
        -- rewrite isinstance_json_decode_error. by rewrite !add_log_after_call.
      * by rewrite !add_log_after_call.
    + cbn [isinstance]. by rewrite !add_log_after_call.
Qed.

(** With a credential present the world after the call is the one before it
    with the call and some log records added. *)
Lemma post_world env text_content w :
  credential_present w →
  ∃ b ls, post_linkedin_update env text_content w
            = (Return b, after_call w (post_request env w text_content) ls).
Proof.
  intros Hc. rewrite (post_run _ _ _ Hc).
  destruct (post_outcome env w text_content) as [r|e];
    [destruct (_ && _)|]; by eexists _, _.
Qed.

Lemma credential_present_w_cred : credential_present Examples.w_cred.
Proof. split; [by eexists|]. eexists; split; [reflexivity | discriminate]. Qed.

(** X5.  In every world and for every text, [post_linkedin_update] leaves
    the credential, the job store and the standard output as they were: it
    writes log records and makes at most its call. *)
Theorem post_linkedin_update_frame env text_content w :
  token_info (post_linkedin_update env text_content w).2 = token_info w ∧
  user_urn (post_linkedin_update env text_content w).2 = user_urn w ∧
  scheduler (post_linkedin_update env text_content w).2 = scheduler w ∧
  stdout (post_linkedin_update env text_content w).2 = stdout w.
Proof.
  destruct (credential_absent_or_present w) as [Habs | Hc].
  - destruct (post_guarded env text_content w Habs) as (msg & _ & ->). done.
  - destruct (post_world env text_content w Hc) as (b & ls & ->). done.
Qed.

(** X6.  Publishing is not idempotent: with a credential present, two calls
    with the same text make two calls to the endpoint, with the same
    request, whatever the first one answered. *)
Theorem post_linkedin_update_twice env text_content w :
  credential_present w →
  trace ((post_linkedin_update env text_content ;;
          post_linkedin_update env text_content) w).2
    = (trace w ++ [post_request env w text_content;
                   post_request env w text_content])%list.
Proof.
  intros Hc. unfold mbind, M_bind, bind.
  destruct (post_world env text_content w Hc) as (b & ls & ->).
  assert (credential_present (after_call w (post_request env w text_content) ls))
    as Hc' by exact Hc.
  destruct (post_world env text_content _ Hc') as (b' & ls' & ->).
  cbn. by rewrite <- app_assoc.
Qed.

Lemma post_linkedin_update_twice_witness :
  trace ((post_linkedin_update Examples.env_500 "hello" ;;
          post_linkedin_update Examples.env_500 "hello") Examples.w_cred).2
    = [ post_request Examples.env_500 Examples.w_cred "hello";
        post_request Examples.env_500 Examples.w_cred "hello" ].
Proof.
  exact (post_linkedin_update_twice Examples.env_500 "hello" Examples.w_cred
           credential_present_w_cred).
Defined.



(** X8.  When the call raises an exception that carries no response,
    [post_linkedin_update] returns [False] and logs exactly one error
    record, which tells a [RequestException] (could not reach the
    endpoint) from any other exception (reported as unexpected). *)
Theorem post_linkedin_update_exception_logged env text_content w e :
  credential_present w →
  post_outcome env w text_content = Raise e →
  exn_response e = None →
  (post_linkedin_update env text_content w).1 = Return false ∧
  logs (post_linkedin_update env text_content w).2 =
    (logs w ++ [ (ERROR, (if isinstance e RequestException
                          then "Error posting to LinkedIn: "
                          else "An unexpected error occurred during posting: ")
                         +:+ exn_str e) ])%list.
Proof.
  intros Hc Ho Hr. rewrite (post_run _ _ _ Hc), Ho. split; [done|].
  cbn [snd logs after_call]. unfold post_error_logs. rewrite Hr.
  by destruct (isinstance e RequestException).
Qed.

Lemma post_linkedin_update_exception_logged_witness :
  (post_linkedin_update Scenarios.env_expired "hello" Examples.w_cred).1 = Return false ∧
  logs (post_linkedin_update Scenarios.env_expired "hello" Examples.w_cred).2 =
    [ (ERROR, "An unexpected error occurred during posting: (token_expired)") ].
Proof.
  apply (post_linkedin_update_exception_logged Scenarios.env_expired "hello"
           Examples.w_cred Scenarios.token_expired credential_present_w_cred);
    reflexivity.
Defined.

Lemma py_truthy_dict_get k (d : pydict) :
  py_truthy (dict_get k d) = true → is_Some (d !! k).
Proof. unfold dict_get. destruct (d !! k); [by eexists | done]. Qed.

(** X9.  A world that passes the main block's test (a non-empty token value
    and a non-empty URN) has the credential present, so that
    [post_linkedin_update] gets past both guards and makes its call. *)
Theorem loaded_credential_reaches_the_call env text_content w :
  needs_authentication w = false →
  credential_present w ∧
  trace (post_linkedin_update env text_content w).2
    = (trace w ++ [post_request env w text_content])%list.
Proof.
  unfold needs_authentication. intros [Ht Hu]%orb_false_iff.
  apply negb_false_iff in Ht, Hu.
  assert (credential_present w) as Hc.
  { split; [by apply py_truthy_dict_get | by apply truthy_true]. }
  split; [exact Hc|].
  destruct (post_world env text_content w Hc) as (b & ls & ->). done.
Qed.

Lemma loaded_credential_reaches_the_call_witness :
  credential_present Examples.w_cred ∧
  trace (post_linkedin_update Examples.env_ok "hello" Examples.w_cred).2
    = [post_request Examples.env_ok Examples.w_cred "hello"].
Proof.
  exact (loaded_credential_reaches_the_call Examples.env_ok "hello" Examples.w_cred
           eq_refl).
Defined.

(** ** Job identifiers *)

Lemma pretty_N_char_not_underscore x : pretty_N_char x ≠ underscore.
Proof. unfold pretty_N_char. repeat case_match; by compute. Qed.

Lemma pretty_N_go_no_underscore x s :
  ¬ occurs underscore s → ¬ occurs underscore (pretty_N_go x s).
Proof.
  revert s. induction (N.lt_wf_0 x) as [x _ IH]; intros s Hs.
  assert (x = 0 ∨ 0 < x)%N as [->|?] by lia.
  - by rewrite pretty_N_go_0.
  - rewrite pretty_N_go_step by done. apply IH.
    { by apply N.div_lt. }
    cbn [occurs]. intros [Hc | Ho]; [|done].
    by apply (pretty_N_char_not_underscore (x `mod` 10)%N).
Qed.

Lemma pretty_N_no_underscore (x : N) : ¬ occurs underscore (pretty x).
Proof.
  unfold pretty, pretty_N. case_decide.
  - cbn. intros [Hc | []]. by compute in Hc.
  - apply pretty_N_go_no_underscore. intros [].
Qed.

(** The decimal form of an integer has no underscore. *)
Lemma pretty_Z_no_underscore (z : Z) : ¬ occurs underscore (pretty z).
Proof.
  destruct z as [|p|p]; unfold pretty, pretty_Z.
  - cbn. intros [H | []]. by compute in H.
  - apply pretty_N_no_underscore.
  - cbn. intros [H | H]; [by compute in H|]. by apply (pretty_N_no_underscore (N.pos p)).
Qed.

(** Two strings cut at the first occurrence of a separator are equal part
    by part. *)
Lemma split_at_separator c a a' b b' :
  ¬ occurs c a → ¬ occurs c a' →
  a +:+ String c b = a' +:+ String c b' → a = a' ∧ b = b'.
Proof.
  revert a'. induction a as [|x a IH]; intros [|x' a'] Ha Ha'; cbn; intros [= ]; simplify_eq.
  - done.
  - destruct Ha'. by left.
  - destruct Ha. by left.
  - destruct (IH a') as [-> ->]; try done.
    + intros ?. apply Ha. by right.
    + intros ?. apply Ha'. by right.
Qed.

(** Equal identifiers come from equal truncated timestamps and equal
    hashes. *)
Lemma derive_job_id_components env d1 d2 text1 text2 :
  derive_job_id env d1 text1 = derive_job_id env d2 text2 →
  int_timestamp d1 = int_timestamp d2 ∧ hash env text1 = hash env text2.
Proof.
  unfold derive_job_id. intros H. apply (inj (String.append _)) in H.
  apply (split_at_separator underscore) in H as [Ht Hh];
    [| apply pretty_Z_no_underscore ..].
  split; by apply (inj pretty).
Qed.

(** X10.  The identifier of a job determines, and is determined by, the
    truncated timestamp of the trigger time and the hash of the text: two
    submissions share an identifier exactly when they agree on both. *)
Theorem derive_job_id_inj env d1 d2 text1 text2 :
  derive_job_id env d1 text1 = derive_job_id env d2 text2 ↔
  int_timestamp d1 = int_timestamp d2 ∧ hash env text1 = hash env text2.
Proof.
  split; [apply derive_job_id_components|].
  unfold derive_job_id. by intros [-> ->].
Qed.

Lemma derive_job_id_inj_witness :
  derive_job_id Examples.env_ok Examples.t_future "hello"
    = derive_job_id Examples.env_ok Examples.t_future_later "world".
Proof. apply derive_job_id_inj. split; reflexivity. Defined.

(** ** [schedule_linkedin_post], further *)

(** X11.  Whatever [post_time] is, [schedule_linkedin_post] returns [None],
    makes no call, prints nothing and leaves the credential as it was. *)
Theorem schedule_linkedin_post_frame env post_time text_content w :
  (schedule_linkedin_post env post_time text_content w).1 = Return PyNone ∧
  token_info (schedule_linkedin_post env post_time text_content w).2 = token_info w ∧
  user_urn (schedule_linkedin_post env post_time text_content w).2 = user_urn w ∧
  stdout (schedule_linkedin_post env post_time text_content w).2 = stdout w ∧
  trace (schedule_linkedin_post env post_time text_content w).2 = trace w.
Proof.
  destruct post_time as [| s | z | d]; try done.
  by rewrite schedule_datetime.
Qed.

(** X12.  Two submissions whose truncated timestamps differ, or whose texts
    have different hashes, do not replace each other: after both, each
    identifier holds its own job, and a store that was empty holds two. *)
Theorem schedule_linkedin_post_coexist env d1 d2 text1 text2 w :
  int_timestamp d1 ≠ int_timestamp d2 ∨ hash env text1 ≠ hash env text2 →
  ∃ w2,
    (schedule_linkedin_post env (PyDatetime d1) text1 ;;
     schedule_linkedin_post env (PyDatetime d2) text2) w = (Return PyNone, w2) ∧
    scheduler w2 !! derive_job_id env d1 text1 = Some (job_of env d1 text1) ∧
    scheduler w2 !! derive_job_id env d2 text2 = Some (job_of env d2 text2) ∧
    (scheduler w = ∅ → size (scheduler w2) = 2%nat).
Proof.
  intros Hne.
  assert (derive_job_id env d2 text2 ≠ derive_job_id env d1 text1) as Hid.
  { intros H. symmetry in H. apply derive_job_id_components in H as [? ?].
    by destruct Hne. }
  exists (after_schedule env d2 text2 (after_schedule env d1 text1 w)).
  split; [run; by rewrite !schedule_datetime|].
  cbn [scheduler after_schedule].
  split; [by rewrite lookup_insert_ne, lookup_insert_eq|].
  split; [by rewrite lookup_insert_eq|].
  intros ->. rewrite map_size_insert_None.
  - by rewrite insert_empty, map_size_singleton.
  - by rewrite lookup_insert_ne, lookup_empty.
Qed.

Lemma schedule_linkedin_post_coexist_witness :
  ∃ w2,
    (schedule_linkedin_post Examples.env_ok (PyDatetime Examples.t_future) "hello" ;;
     schedule_linkedin_post Examples.env_ok (PyDatetime Examples.t_future) "hello again")
      Examples.w_fresh = (Return PyNone, w2) ∧
    scheduler w2 !! derive_job_id Examples.env_ok Examples.t_future "hello"
      = Some (job_of Examples.env_ok Examples.t_future "hello") ∧
    scheduler w2 !! derive_job_id Examples.env_ok Examples.t_future "hello again"
      = Some (job_of Examples.env_ok Examples.t_future "hello again") ∧
    size (scheduler w2) = 2%nat.
Proof.
  destruct (schedule_linkedin_post_coexist Examples.env_ok Examples.t_future
              Examples.t_future "hello" "hello again" Examples.w_fresh)
    as (w2 & Heq & H1 & H2 & Hsize).
  { right. simpl. lia. }
  exists w2. split; [exact Heq|]. split; [exact H1|]. split; [exact H2|].
  apply Hsize. reflexivity.
Defined.

Lemma script_store_empty env : script_store env ∅.
Proof. intros id job H. by rewrite lookup_empty in H. Qed.

Lemma script_store_insert env s d text_content :
  script_store env s →
  script_store env (<[derive_job_id env d text_content := job_of env d text_content]> s).
Proof.
  intros Hs id job Hl. destruct (decide (id = derive_job_id env d text_content)) as [->|Hne].
  - rewrite lookup_insert_eq in Hl. injection Hl as <-. by exists d, text_content.
  - rewrite lookup_insert_ne in Hl by done. by apply Hs.
Qed.

(** X13.  [schedule_linkedin_post] keeps the job store well formed: if every
    job of the store was made by the function and sits under its own
    identifier, the same holds after a call, whatever [post_time] is. *)
Theorem schedule_linkedin_post_script_store env post_time text_content w :
  script_store env (scheduler w) →
  script_store env (scheduler (schedule_linkedin_post env post_time text_content w).2).
Proof.
  intros Hs. destruct post_time as [| s | z | d]; try done.
  rewrite schedule_datetime. by apply script_store_insert.
Qed.

Lemma schedule_linkedin_post_script_store_witness :
  script_store Examples.env_ok (scheduler Examples.w_fresh) ∧
  script_store Examples.env_ok
    (scheduler (schedule_linkedin_post Examples.env_ok (PyDatetime Examples.t_future)
                  "hello" Examples.w_fresh).2).
Proof.
  assert (script_store Examples.env_ok (scheduler Examples.w_fresh)) as Hs
    by apply script_store_empty.
  split; [exact Hs|].
  exact (schedule_linkedin_post_script_store Examples.env_ok
           (PyDatetime Examples.t_future) "hello" Examples.w_fresh Hs).
Defined.

(** X14.  The past-due test is strict: for a trigger time at or after now,
    [schedule_linkedin_post] logs the one record that the post was
    scheduled and no warning. *)
Theorem schedule_linkedin_post_no_warning env d text_content w :
  micros (now env) ≤ micros d →
  logs (schedule_linkedin_post env (PyDatetime d) text_content w).2 =
    (logs w ++ [(INFO, "Scheduled post for " +:+ str_datetime env d +:+ ": '"
                       +:+ slice_to 50 text_content +:+ "...'")])%list.
Proof.
  intros Hd. rewrite schedule_datetime. cbn [snd logs after_schedule].
  unfold schedule_logs, dt_ltb. by rewrite (proj2 (Z.ltb_ge _ _) Hd).
Qed.

Lemma schedule_linkedin_post_no_warning_witness :
  logs (schedule_linkedin_post Examples.env_ok (PyDatetime (now Examples.env_ok))
          "hello" Examples.w_fresh).2 =
    [(INFO, "Scheduled post for 1700000000000000: 'hello...'")].
Proof.
  apply (schedule_linkedin_post_no_warning Examples.env_ok (now Examples.env_ok)
           "hello" Examples.w_fresh). simpl. lia.
Defined.

Lemma length_substring_0 n s :
  String.length (String.substring 0 n s) = Nat.min n (String.length s).
Proof.
  revert n. induction s as [|c s IH]; intros [|n]; cbn; try done.
  by rewrite IH.
Qed.

Lemma length_append s1 s2 :
  String.length (s1 +:+ s2) = (String.length s1 + String.length s2)%nat.
Proof. induction s1 as [|c s1 IH]; [done|]. simpl. by rewrite IH. Qed.

Lemma substring_0_all n s :
  (String.length s ≤ n)%nat → String.substring 0 n s = s.
Proof.
  revert n. induction s as [|c s IH]; intros [|n]; cbn; try done; try lia.
  intros H. rewrite IH; [done | lia].
Qed.

(** X15.  The name of a job is at most 43 characters long, whatever the
    text; a text of at most 30 characters is in it whole. *)
Theorem job_name_bounded env d text_content :
  (String.length (job_name (job_of env d text_content)) ≤ 43)%nat ∧
  ((String.length text_content ≤ 30)%nat →
   job_name (job_of env d text_content) = "LinkedIn: " +:+ text_content +:+ "...").
Proof.
  cbn [job_name job_of]. unfold slice_to. split.
  - rewrite !length_append, length_substring_0.
    change (String.length "LinkedIn: ") with 10%nat.
    change (String.length "...") with 3%nat. lia.
  - intros H. by rewrite substring_0_all.
Qed.

Lemma job_name_bounded_witness :
  job_name (job_of Examples.env_ok Examples.t_future "hello") = "LinkedIn: hello...".
Proof.
  apply (job_name_bounded Examples.env_ok Examples.t_future "hello"). simpl. lia.
Defined.

(** ** [list_scheduled_posts], further *)

Lemma add_stdout_print_lines s ls w :
  add_stdout s (print_lines ls w) = print_lines (ls ++ [s]) w.
Proof. unfold add_stdout, print_lines; cbn. by rewrite app_assoc. Qed.

Lemma print_lines_nil w : print_lines [] w = w.
Proof. destruct w. unfold print_lines; cbn. by rewrite app_nil_r. Qed.

Lemma print_lines_app ls1 ls2 w :
  print_lines ls2 (print_lines ls1 w) = print_lines (ls1 ++ ls2) w.
Proof. unfold print_lines; cbn. by rewrite app_assoc. Qed.

Lemma print_job_run env job w :
  print_job env job w = (Return tt, print_lines (block_of env job (listed_content job)) w).
Proof.
  unfold print_job, block_of, listed_content. run.
  unfold add_stdout, print_lines. cbn [token_info user_urn scheduler logs stdout trace].
  by rewrite <- !app_assoc.
Qed.

(** The loop over the jobs prints their blocks one after the other. *)
Lemma for_each_print_job env jobs ls w :
  for_each jobs (print_job env) (print_lines ls w)
    = (Return tt,
       print_lines (ls ++ concat ((λ job, block_of env job (listed_content job)) <$> jobs)) w).
Proof.
  revert ls. induction jobs as [|job jobs IH]; intros ls.
  - cbn. run. by rewrite app_nil_r.
  - cbn [for_each fmap list_fmap concat]. unfold mbind, M_bind, bind.
    rewrite print_job_run, print_lines_app, IH. by rewrite <- app_assoc.
Qed.

Lemma list_scheduled_posts_run env w :
  list_scheduled_posts env w
    = (Return tt, print_lines (listing_lines env (map_to_list (scheduler w)).*2) w).
Proof.
  unfold list_scheduled_posts, get_jobs, listing_lines. run.
  destruct ((map_to_list (scheduler w)).*2) as [|job jobs] eqn:Hj.
  - unfold add_stdout, print_lines. done.
  - rewrite <- (print_lines_nil w) at 1. rewrite add_stdout_print_lines.
    rewrite for_each_print_job. cbn [fst snd]. rewrite add_stdout_print_lines.
    by rewrite app_nil_l, <- app_assoc.
Qed.

Lemma length_blocks env (jobs : list Job) (content : Job → string) :
  length (concat ((λ job, block_of env job (content job)) <$> jobs))
    = (4 * length jobs)%nat.
Proof. induction jobs as [|job jobs IH]; cbn; [done|]. rewrite IH. lia. Qed.

(** X16.  [list_scheduled_posts] always returns, changes nothing but the
    standard output, and prints one line when the store is empty and two
    lines plus four per job otherwise. *)
Theorem list_scheduled_posts_lines env w :
  (list_scheduled_posts env w).1 = Return tt ∧
  token_info (list_scheduled_posts env w).2 = token_info w ∧
  user_urn (list_scheduled_posts env w).2 = user_urn w ∧
  scheduler (list_scheduled_posts env w).2 = scheduler w ∧
  logs (list_scheduled_posts env w).2 = logs w ∧
  trace (list_scheduled_posts env w).2 = trace w ∧
  length (stdout (list_scheduled_posts env w).2)
    = (length (stdout w)
       + if decide (scheduler w = ∅) then 1 else 4 * size (scheduler w) + 2)%nat.
Proof.
  rewrite list_scheduled_posts_run. do 6 (split; [done|]).
  cbn [snd stdout print_lines]. rewrite length_app. f_equal.
  unfold listing_lines.
  destruct ((map_to_list (scheduler w)).*2) as [|job jobs] eqn:Hj.
  - apply fmap_nil_inv, map_to_list_empty_iff in Hj. by rewrite decide_True.
  - rewrite decide_False.
    + rewrite !length_app, length_blocks, <- Hj, length_fmap, length_map_to_list. cbn. lia.
    + intros He. rewrite He, map_to_list_empty in Hj. done.
Qed.

(** X17.  With no job in the store, [list_scheduled_posts] prints the one
    line that no post is scheduled, and neither header nor footer. *)
Theorem list_scheduled_posts_empty env w :
  scheduler w = ∅ →
  list_scheduled_posts env w = (Return tt, add_stdout "No posts currently scheduled." w).
Proof.
  intros He. rewrite list_scheduled_posts_run, He, map_to_list_empty. done.
Qed.

Lemma list_scheduled_posts_empty_witness :
  list_scheduled_posts Examples.env_ok Examples.w_fresh
    = (Return tt, add_stdout "No posts currently scheduled." Examples.w_fresh).
Proof. exact (list_scheduled_posts_empty Examples.env_ok Examples.w_fresh eq_refl). Defined.




(** ** [perform_oauth_flow], further *)

(** [perform_oauth_flow], stage by stage. *)
Lemma perform_oauth_flow_run env w :
  perform_oauth_flow env w =
    if negb (truthy (CLIENT_ID env)) || negb (truthy (CLIENT_SECRET env))
    then (Return false, add_log ERROR MissingClientConfig w)
    else if String.eqb (pasted env) EmptyString
    then (Return false,
          add_log ERROR "No redirect URL provided. Authentication failed."
            (after_prompt env w))
    else match fetch_token_result env (flow_session env) (pasted env) with
         | Raise e =>
             (Return false,
              add_log ERROR ("Error during token fetch or profile info retrieval: "
                             +:+ exn_str e) (after_fetch env w))
         | Return token =>
             flow_finish token
               (get_profile_info env (token_session env token)
                  (add_log INFO "Successfully obtained access token."
                     (with_token_info token (after_fetch env w))))
         end.
Proof.
  unfold perform_oauth_flow.
  destruct (negb (truthy (CLIENT_ID env)) || negb (truthy (CLIENT_SECRET env))); [done|].
  unfold authorization_url, webbrowser_open, input, fetch_token, after_fetch,
    after_prompt, browser_logs, token_session, issued_url.
  pose proof (flow_session_eq env) as Hsess. unfold issued_state in *.
  destruct (make_authorization_url env AUTHORIZATION_URL) as [url st] eqn:Hurl.
  specialize (Hsess url st eq_refl).
  run. cbn [get_oauth_session session_client_id session_redirect_uri session_scope
            session_token session_state fst snd].
  rewrite Hsess. cbn [isinstance].
  assert (∀ ls,
    {| token_info := token_info w; user_urn := user_urn w; scheduler := scheduler w;
       logs := logs w ++ ls;
       stdout := stdout w ++
         [ "Please go to this URL and authorize the application:" +:+ NL +:+ url;
           NL +:+ "Opening browser..." ];
       trace := trace w ++
         [ EAuthorizationUrl (get_oauth_session env None) url;
           EBrowserOpen url;
           EInput "Paste the full redirect URL from your browser after authorizing: " ] |}
    = add_event (EInput "Paste the full redirect URL from your browser after authorizing: ")
        {| token_info := token_info w; user_urn := user_urn w; scheduler := scheduler w;
           logs := logs w ++ ls;
           stdout := (stdout w ++
             [ "Please go to this URL and authorize the application:" +:+ NL +:+ url ])
             ++ [ NL +:+ "Opening browser..." ];
           trace := (trace w ++ [ EAuthorizationUrl (get_oauth_session env None) url ])
                    ++ [ EBrowserOpen url ] |}) as Hw.
  { intros ls. unfold add_event. cbn. by rewrite <- !app_assoc. }
  destruct (browser env url) as [eb|]; rewrite Hw.
  - unfold add_log, add_event, add_stdout; cbn [token_info user_urn scheduler logs stdout trace].
    destruct (String.eqb (pasted env) EmptyString); [done|].
    destruct (fetch_token_result env (flow_session env) (pasted env)) as [token | e]; [|done].
    cbn [session_state flow_session].
    destruct (get_profile_info env _ _) as [[[profile|]|e] w4]; cbn [flow_finish]; try done.
    destruct (dict_truthy profile && dict_has "id" profile); [|done].
    unfold print_lines, add_log, add_stdout, with_user_urn; cbn. by rewrite <- !app_assoc.
  - unfold add_log, add_event, add_stdout; cbn [token_info user_urn scheduler logs stdout trace].
    rewrite app_nil_r.
    destruct (String.eqb (pasted env) EmptyString); [done|].
    destruct (fetch_token_result env (flow_session env) (pasted env)) as [token | e]; [|done].
    cbn [session_state flow_session].
    destruct (get_profile_info env _ _) as [[[profile|]|e] w4]; cbn [flow_finish]; try done.
    destruct (dict_truthy profile && dict_has "id" profile); [|done].
    unfold print_lines, add_log, add_stdout, with_user_urn; cbn. by rewrite <- !app_assoc.
Qed.




(** X20.  When the operator pastes nothing, [perform_oauth_flow] returns
    [False] after the authorization URL was built, the browser was asked
    to open it and the operator was prompted: no token is requested, the
    credential is unchanged, and the last log record says that no redirect
    URL was provided. *)
Theorem perform_oauth_flow_nothing_pasted env w :
  truthy (CLIENT_ID env) = true → truthy (CLIENT_SECRET env) = true →
  pasted env = EmptyString →
  (perform_oauth_flow env w).1 = Return false ∧
  trace (perform_oauth_flow env w).2 =
    (trace w ++ [ EAuthorizationUrl (get_oauth_session env None) (issued_url env);
                  EBrowserOpen (issued_url env);
                  EInput "Paste the full redirect URL from your browser after authorizing: " ])%list ∧
  token_info (perform_oauth_flow env w).2 = token_info w ∧
  user_urn (perform_oauth_flow env w).2 = user_urn w ∧
  last (logs (perform_oauth_flow env w).2)
    = Some (ERROR, "No redirect URL provided. Authentication failed.").
Proof.
  intros Hid Hsec Hp. rewrite perform_oauth_flow_run, Hid, Hsec, Hp. cbn [negb orb String.eqb].
  do 4 (split; [done|]). cbn [snd logs add_log]. apply last_snoc.
Qed.

Lemma perform_oauth_flow_nothing_pasted_witness :
  (perform_oauth_flow Scenarios.env_nothing_pasted Examples.w_cred).1 = Return false ∧
  trace (perform_oauth_flow Scenarios.env_nothing_pasted Examples.w_cred).2 =
    [ EAuthorizationUrl (get_oauth_session Scenarios.env_nothing_pasted None)
        (issued_url Scenarios.env_nothing_pasted);
      EBrowserOpen (issued_url Scenarios.env_nothing_pasted);
      EInput "Paste the full redirect URL from your browser after authorizing: " ] ∧
  token_info (perform_oauth_flow Scenarios.env_nothing_pasted Examples.w_cred).2
    = token_info Examples.w_cred ∧
  user_urn (perform_oauth_flow Scenarios.env_nothing_pasted Examples.w_cred).2
    = user_urn Examples.w_cred ∧
  last (logs (perform_oauth_flow Scenarios.env_nothing_pasted Examples.w_cred).2)
    = Some (ERROR, "No redirect URL provided. Authentication failed.").
Proof.
  apply (perform_oauth_flow_nothing_pasted Scenarios.env_nothing_pasted Examples.w_cred);
    reflexivity.
Defined.

(** X21.  The calls of [perform_oauth_flow] are always an initial segment of
    one fixed sequence: authorization URL, browser, prompt, token request,
    profile GET.  It never makes a POST and never touches the job store. *)
Theorem perform_oauth_flow_calls env w :
  scheduler (perform_oauth_flow env w).2 = scheduler w ∧
  (∃ n, trace (perform_oauth_flow env w).2 = (trace w ++ take n (flow_calls env))%list) ∧
  (∀ ev, ev ∈ trace (perform_oauth_flow env w).2 → ev ∈ trace w ∨ is_post ev = false).
Proof.
  assert (scheduler (perform_oauth_flow env w).2 = scheduler w ∧
          ∃ n, trace (perform_oauth_flow env w).2 = (trace w ++ take n (flow_calls env))%list)
    as [Hs [n Hn]].
  { rewrite perform_oauth_flow_run. unfold flow_calls, exchanged_token.
    destruct (negb _ || negb _).
    { split; [done|]. exists 0%nat. cbn. by rewrite app_nil_r. }
    destruct (String.eqb _ _). { split; [done|]. by exists 3%nat. }
    destruct (fetch_token_result env (flow_session env) (pasted env)) as [token | e].
    2: { split; [done|]. exists 4%nat. cbn. by rewrite <- app_assoc. }
    destruct (get_profile_info_world env (token_session env token)
                (add_log INFO "Successfully obtained access token."
                   (with_token_info token (after_fetch env w)))) as [ls Hw].
    destruct (get_profile_info env _ _) as [o w4]. cbn [snd] in Hw. subst w4.
    assert (∀ r : outcome bool * World,
      (∃ b l1 l2 u, r = (Return b, {| token_info := token; user_urn := u;
              scheduler := scheduler w; logs := l1; stdout := l2;
              trace := ((trace w ++
                [ EAuthorizationUrl (get_oauth_session env None) (issued_url env);
                  EBrowserOpen (issued_url env);
                  EInput "Paste the full redirect URL from your browser after authorizing: " ])
                ++ [EFetchToken (flow_session env) ACCESS_TOKEN_URL (CLIENT_SECRET env)
                      (pasted env)])
                ++ [EGet (token_session env token) profile_url] |})) →
      scheduler r.2 = scheduler w ∧
      ∃ n, trace r.2 = (trace w ++ take n
        ([ EAuthorizationUrl (get_oauth_session env None) (issued_url env);
           EBrowserOpen (issued_url env);
           EInput "Paste the full redirect URL from your browser after authorizing: ";
           EFetchToken (flow_session env) ACCESS_TOKEN_URL (CLIENT_SECRET env) (pasted env) ]
         ++ [EGet (token_session env token) profile_url]))%list) as Hfin.
    { intros r (b & l1 & l2 & u & ->). split; [done|]. exists 5%nat. cbn.
      by rewrite <- !app_assoc. }
    apply Hfin. destruct o as [[profile|]|e]; cbn [flow_finish].
    - destruct (dict_truthy profile && dict_has "id" profile); by eexists _, _, _, _.
    - by eexists _, _, _, _.
    - by eexists _, _, _, _. }
  split; [exact Hs|]. split; [by exists n|].
  intros ev. rewrite Hn, elem_of_app. intros [H | H]; [by left|]. right.
  apply elem_of_take in H as (i & Hi & _). apply list_elem_of_lookup_2 in Hi.
  unfold flow_calls in Hi.
  destruct (exchanged_token env);
    repeat (apply elem_of_cons in Hi as [-> | Hi]; [done|]);
    by apply elem_of_nil in Hi.
Qed.

Lemma perform_oauth_flow_calls_witness :
  scheduler (perform_oauth_flow Examples.env_ok Scenarios.w_one_job).2
    = scheduler Scenarios.w_one_job ∧
  ∃ n, trace (perform_oauth_flow Examples.env_ok Scenarios.w_one_job).2
         = (trace Scenarios.w_one_job ++ take n (flow_calls Examples.env_ok))%list.
Proof.
  destruct (perform_oauth_flow_calls Examples.env_ok Scenarios.w_one_job)
    as (Hs & Hn & _).
  split; [exact Hs | exact Hn].
Defined.

Lemma get_profile_info_same_but_logs env s w1 w2 :
  same_but_logs w1 w2 →
  same_but_logs (get_profile_info env s w1).2 (get_profile_info env s w2).2.
Proof.
  intros (Ht & Hu & Hs & Ho & Hr).
  destruct (get_profile_info_world env s w1) as [l1 ->].
  destruct (get_profile_info_world env s w2) as [l2 ->].
  unfold same_but_logs; cbn. by rewrite Ht, Hu, Hs, Ho, Hr.
Qed.

Lemma flow_finish_same_but_logs token o w1 w2 :
  same_but_logs w1 w2 →
  (flow_finish token (o, w1)).1 = (flow_finish token (o, w2)).1 ∧
  same_but_logs (flow_finish token (o, w1)).2 (flow_finish token (o, w2)).2.
Proof.
  intros (Ht & Hu & Hs & Ho & Hr). destruct o as [[profile|]|e]; cbn [flow_finish].
  - destruct (dict_truthy profile && dict_has "id" profile); split; try done;
      unfold same_but_logs; cbn; by rewrite ?Ht, ?Hu, ?Hs, ?Ho, ?Hr.
  - split; [done|]. unfold same_but_logs; cbn. by rewrite ?Ht, ?Hu, ?Hs, ?Ho, ?Hr.
  - split; [done|]. unfold same_but_logs; cbn. by rewrite ?Ht, ?Hu, ?Hs, ?Ho, ?Hr.
Qed.

(** X22.  Whether the browser can be opened makes no difference to the
    flow: with any other behaviour of the browser, [perform_oauth_flow]
    returns the same value and leaves the same credential, job store,
    standard output and calls.  Only the log records can differ. *)
Theorem perform_oauth_flow_browser_irrelevant env b w :
  (perform_oauth_flow (with_browser env b) w).1 = (perform_oauth_flow env w).1 ∧
  token_info (perform_oauth_flow (with_browser env b) w).2
    = token_info (perform_oauth_flow env w).2 ∧
  user_urn (perform_oauth_flow (with_browser env b) w).2
    = user_urn (perform_oauth_flow env w).2 ∧
  scheduler (perform_oauth_flow (with_browser env b) w).2
    = scheduler (perform_oauth_flow env w).2 ∧
  stdout (perform_oauth_flow (with_browser env b) w).2
    = stdout (perform_oauth_flow env w).2 ∧
  trace (perform_oauth_flow (with_browser env b) w).2
    = trace (perform_oauth_flow env w).2.
Proof.
  enough ((perform_oauth_flow (with_browser env b) w).1 = (perform_oauth_flow env w).1 ∧
          same_but_logs (perform_oauth_flow (with_browser env b) w).2
                        (perform_oauth_flow env w).2) as H by exact H.
  rewrite !perform_oauth_flow_run.
  change (CLIENT_ID (with_browser env b)) with (CLIENT_ID env).
  change (CLIENT_SECRET (with_browser env b)) with (CLIENT_SECRET env).
  change (pasted (with_browser env b)) with (pasted env).
  change (fetch_token_result (with_browser env b) (flow_session (with_browser env b)))
    with (fetch_token_result env (flow_session env)).
  destruct (negb _ || negb _); [done|].
  destruct (String.eqb _ _); [done|].
  destruct (fetch_token_result env (flow_session env) (pasted env)) as [token | e]; [|done].
  change (get_profile_info (with_browser env b) (token_session (with_browser env b) token))
    with (get_profile_info env (token_session env token)).
  set (w1 := add_log INFO _ (with_token_info token (after_fetch (with_browser env b) w))).
  set (w2 := add_log INFO _ (with_token_info token (after_fetch env w))).
  assert (same_but_logs w1 w2) as Hw by done.
  pose proof (get_profile_info_value env (token_session env token) w1 w2) as Hv.
  pose proof (get_profile_info_same_but_logs env (token_session env token) w1 w2 Hw) as Hs.
  destruct (get_profile_info env (token_session env token) w1) as [o1 w1'].
  destruct (get_profile_info env (token_session env token) w2) as [o2 w2'].
  cbn [fst snd] in Hv, Hs. subst o2.
  by apply flow_finish_same_but_logs.
Qed.

(** The credential and the output of a flow that returns [True]. *)
Lemma perform_oauth_flow_success env w :
  (perform_oauth_flow env w).1 = Return true →
  ∃ token id,
    exchanged_token env = Some token ∧
    token_info (perform_oauth_flow env w).2 = token ∧
    user_urn (perform_oauth_flow env w).2 = Some ("urn:li:person:" +:+ id) ∧
    stdout (perform_oauth_flow env w).2 =
      (stdout w ++
       [ "Please go to this URL and authorize the application:" +:+ NL +:+ issued_url env;
         NL +:+ "Opening browser...";
         NL +:+ "--- Authentication Successful ---";
         "Your Access Token: " +:+ py_str (dict_get "access_token" token);
         "Your User URN: " +:+ "urn:li:person:" +:+ id;
         "RECOMMENDATION: Update your .env file with these values to avoid authenticating next time.";
         "--------------------------------" +:+ NL ])%list.
Proof.
  rewrite perform_oauth_flow_run. unfold exchanged_token.
  destruct (negb _ || negb _); [done|].
  destruct (String.eqb _ _); [done|].
  destruct (fetch_token_result env (flow_session env) (pasted env)) as [token | e]; [|done].
  destruct (get_profile_info_world env (token_session env token)
              (add_log INFO "Successfully obtained access token."
                 (with_token_info token (after_fetch env w)))) as [ls Hw].
  destruct (get_profile_info env _ _) as [o w4]. cbn [snd] in Hw. subst w4.
  destruct o as [[profile|]|e]; cbn [flow_finish]; try done.
  destruct (dict_truthy profile && dict_has "id" profile); [|done].
  intros _. eexists _, _. split; [reflexivity|]. split; [reflexivity|].
  split; [reflexivity|]. cbn. by rewrite <- !app_assoc.
Qed.

(** X23.  A flow that returns [True] shows the operator what it stored: the
    token line and the URN line it prints carry the token and the URN that
    the globals hold when it returns, and its output is the two lines of
    the invitation followed by the five of the success notice. *)
Theorem perform_oauth_flow_prints_what_it_stores env w :
  (perform_oauth_flow env w).1 = Return true →
  ∃ urn,
    user_urn (perform_oauth_flow env w).2 = Some urn ∧
    stdout (perform_oauth_flow env w).2 =
      (stdout w ++
       [ "Please go to this URL and authorize the application:" +:+ NL +:+ issued_url env;
         NL +:+ "Opening browser...";
         NL +:+ "--- Authentication Successful ---";
         "Your Access Token: "
           +:+ py_str (dict_get "access_token" (token_info (perform_oauth_flow env w).2));
         "Your User URN: " +:+ urn;
         "RECOMMENDATION: Update your .env file with these values to avoid authenticating next time.";
         "--------------------------------" +:+ NL ])%list.
Proof.
  intros Htrue.
  destruct (perform_oauth_flow_success env w Htrue) as (token & id & _ & Ht & Hu & Ho).
  exists ("urn:li:person:" +:+ id). split; [exact Hu|]. by rewrite Ht, Ho.
Qed.

Lemma perform_oauth_flow_prints_what_it_stores_witness :
  ∃ urn,
    user_urn (perform_oauth_flow Examples.env_ok Examples.w_fresh).2 = Some urn ∧
    stdout (perform_oauth_flow Examples.env_ok Examples.w_fresh).2 =
      [ "Please go to this URL and authorize the application:" +:+ NL
          +:+ issued_url Examples.env_ok;
        NL +:+ "Opening browser...";
        NL +:+ "--- Authentication Successful ---";
        "Your Access Token: "
          +:+ py_str (dict_get "access_token"
                        (token_info (perform_oauth_flow Examples.env_ok Examples.w_fresh).2));
        "Your User URN: " +:+ urn;
        "RECOMMENDATION: Update your .env file with these values to avoid authenticating next time.";
        "--------------------------------" +:+ NL ].
Proof.
  exact (perform_oauth_flow_prints_what_it_stores Examples.env_ok Examples.w_fresh eq_refl).
Defined.

(** X24.  After a flow that returned [True] with a token that has an
    [access_token] entry, [post_linkedin_update] gets past both guards and
    makes its call with the session of the new token and the new URN as
    author. *)
Theorem publish_after_authorization env text_content w token :
  (perform_oauth_flow env w).1 = Return true →
  exchanged_token env = Some token →
  is_Some (token !! "access_token") →
  ∃ urn,
    user_urn (perform_oauth_flow env w).2 = Some urn ∧
    trace (post_linkedin_update env text_content (perform_oauth_flow env w).2).2 =
      (trace (perform_oauth_flow env w).2
       ++ [EPost (get_oauth_session env (Some token)) (API_BASE_URL +:+ "ugcPosts")
             post_headers (post_body_of (Some urn) text_content)])%list.
Proof.
  intros Htrue Hex Htok.
  destruct (perform_oauth_flow_success env w Htrue) as (token' & id & Hex' & Ht & Hu & _).
  rewrite Hex in Hex'. injection Hex' as <-.
  exists ("urn:li:person:" +:+ id). split; [exact Hu|].
  assert (credential_present (perform_oauth_flow env w).2) as Hc.
  { split; [by rewrite Ht|]. eexists. split; [exact Hu | done]. }
  destruct (post_world env text_content _ Hc) as (b & ls & ->).
  unfold post_request. by rewrite Ht, Hu.
Qed.

Lemma publish_after_authorization_witness :
  ∃ urn,
    user_urn (perform_oauth_flow Examples.env_ok Examples.w_fresh).2 = Some urn ∧
    trace (post_linkedin_update Examples.env_ok "hello"
             (perform_oauth_flow Examples.env_ok Examples.w_fresh).2).2 =
      (trace (perform_oauth_flow Examples.env_ok Examples.w_fresh).2
       ++ [EPost (get_oauth_session Examples.env_ok (Some Examples.new_token))
             (API_BASE_URL +:+ "ugcPosts") post_headers
             (post_body_of (Some urn) "hello")])%list.
Proof.
  apply (publish_after_authorization Examples.env_ok "hello" Examples.w_fresh
           Examples.new_token); [reflexivity | reflexivity | by eexists].
Defined.

(** ** The main block *)

Lemma main_authenticate_run env w :
  main_authenticate env w =
    if needs_authentication w then
      match perform_oauth_flow env
              (add_log INFO "Access token or user URN not found in environment. Starting authentication flow." w) with
      | (Return true, w') =>
          (Return tt, add_log INFO "Authentication successful. You might want to restart the script after updating .env." w')
      | (Return false, w') =>
          (Raise SystemExit, add_log CRITICAL "Authentication failed. Exiting." w')
      | (Raise e, w') => (Raise e, w')
      end
    else (Return tt, add_log INFO "Access token and user URN loaded from environment." w).
Proof.
  unfold main_authenticate, needs_authentication, exit. run.
  destruct (negb _ || negb _); [|done].
  destruct (perform_oauth_flow env _) as [[[|]|e] w']; done.
Qed.

Lemma quot_lt_of_two_apart a b m :
  0 < m → a + 2 * m ≤ b → a `quot` m < b `quot` m.
Proof.
  intros Hm Hab.
  pose proof (Z.quot_rem' a m) as Ha. pose proof (Z.quot_rem' b m) as Hb.
  pose proof (Z.rem_bound_abs a m ltac:(lia)) as Hra.
  pose proof (Z.rem_bound_abs b m ltac:(lia)) as Hrb.
  nia.
Qed.

(** X25.  With a token and a URN loaded from the environment, the main
    block up to its loop does not authenticate and lets nothing leave the
    script: it returns with the credential and the trace as they were. *)
Theorem main_with_loaded_credential env now_1 stamp now_3 w :
  needs_authentication w = false →
  (main env now_1 stamp now_3 w).1 = Return tt ∧
  token_info (main env now_1 stamp now_3 w).2 = token_info w ∧
  user_urn (main env now_1 stamp now_3 w).2 = user_urn w ∧
  trace (main env now_1 stamp now_3 w).2 = trace w ∧
  stdout (main env now_1 stamp now_3 w).2 = stdout w.
Proof.
  intros Hn. unfold main. unfold mbind, M_bind, bind.
  rewrite main_authenticate_run, Hn. unfold main_schedule. run.
  by rewrite !schedule_datetime.
Qed.

Lemma main_with_loaded_credential_witness :
  (main Examples.env_ok Examples.t_past "2020-09-13 12:26:40" Examples.t_past
     Examples.w_cred).1 = Return tt ∧
  token_info (main Examples.env_ok Examples.t_past "2020-09-13 12:26:40" Examples.t_past
                Examples.w_cred).2 = token_info Examples.w_cred ∧
  user_urn (main Examples.env_ok Examples.t_past "2020-09-13 12:26:40" Examples.t_past
              Examples.w_cred).2 = user_urn Examples.w_cred ∧
  trace (main Examples.env_ok Examples.t_past "2020-09-13 12:26:40" Examples.t_past
           Examples.w_cred).2 = trace Examples.w_cred ∧
  stdout (main Examples.env_ok Examples.t_past "2020-09-13 12:26:40" Examples.t_past
            Examples.w_cred).2 = stdout Examples.w_cred.
Proof.
  exact (main_with_loaded_credential Examples.env_ok Examples.t_past
           "2020-09-13 12:26:40" Examples.t_past Examples.w_cred eq_refl).
Defined.

(** X26.  When authentication is needed and the flow fails, the main block
    ends with [SystemExit] right after logging the critical record: the
    example posts are not scheduled and the job store is as it was. *)
Theorem main_exits_when_flow_fails env now_1 stamp now_3 w :
  needs_authentication w = true →
  (perform_oauth_flow env
     (add_log INFO "Access token or user URN not found in environment. Starting authentication flow." w)).1
    = Return false →
  (main env now_1 stamp now_3 w).1 = Raise SystemExit ∧
  scheduler (main env now_1 stamp now_3 w).2 = scheduler w ∧
  last (logs (main env now_1 stamp now_3 w).2)
    = Some (CRITICAL, "Authentication failed. Exiting.").
Proof.
  intros Hn Hf. unfold main. unfold mbind, M_bind, bind.
  rewrite main_authenticate_run, Hn.
  destruct (perform_oauth_flow_cases env
    (add_log INFO "Access token or user URN not found in environment. Starting authentication flow." w))
    as (b & w' & Heq & Hs & _).
  rewrite Heq in Hf |- *. cbn [fst] in Hf. injection Hf as ->.
  split; [done|]. split; [exact Hs|]. cbn [snd logs add_log]. apply last_snoc.
Qed.

Lemma main_exits_when_flow_fails_witness :
  (main Examples.env_bad_state Examples.t_past "2020-09-13 12:26:40" Examples.t_past
     Examples.w_fresh).1 = Raise SystemExit ∧
  scheduler (main Examples.env_bad_state Examples.t_past "2020-09-13 12:26:40"
               Examples.t_past Examples.w_fresh).2 = scheduler Examples.w_fresh ∧
  last (logs (main Examples.env_bad_state Examples.t_past "2020-09-13 12:26:40"
                Examples.t_past Examples.w_fresh).2)
    = Some (CRITICAL, "Authentication failed. Exiting.").
Proof.
  apply (main_exits_when_flow_fails Examples.env_bad_state Examples.t_past
           "2020-09-13 12:26:40" Examples.t_past Examples.w_fresh); reflexivity.
Defined.

(** X27.  If the authentication part of the main block returns, [user_urn]
    is a non-empty string, so the URN guard of [post_linkedin_update]
    cannot fire on the jobs the main block goes on to schedule. *)
Theorem main_authenticate_ensures_urn env w :
  (main_authenticate env w).1 = Return tt →
  ∃ urn, user_urn (main_authenticate env w).2 = Some urn ∧ urn ≠ EmptyString.
Proof.
  rewrite main_authenticate_run. unfold needs_authentication.
  destruct (negb (py_truthy _) || negb (truthy (user_urn w))) eqn:Hn.
  - destruct (perform_oauth_flow_cases env
      (add_log INFO "Access token or user URN not found in environment. Starting authentication flow." w))
      as (b & w' & -> & _ & Hb).
    destruct b; [|done]. intros _. destruct Hb as (token & profile & _ & _ & _ & Hu).
    eexists. split; [exact Hu | done].
  - intros _. apply orb_false_iff in Hn as [_ Hu]. apply negb_false_iff in Hu.
    by apply truthy_true in Hu.
Qed.

Lemma main_authenticate_ensures_urn_witness :
  ∃ urn, user_urn (main_authenticate Examples.env_ok Examples.w_fresh).2 = Some urn
         ∧ urn ≠ EmptyString.
Proof. exact (main_authenticate_ensures_urn Examples.env_ok Examples.w_fresh eq_refl). Defined.

(** X28.  The two example posts of the main block never collide: if the
    clock does not run backwards between its readings, they get different
    identifiers, both jobs are in the store afterwards, and a store that
    was empty holds exactly two jobs. *)
Theorem main_schedule_two_jobs env now_1 stamp now_3 w :
  micros now_1 ≤ micros now_3 →
  let text_1 := "Hello from my Python scheduler! This post was scheduled at "
                +:+ stamp +:+ "." in
  let text_2 := "This is a second scheduled post to LinkedIn via Python and APScheduler. #Python #Automation #LinkedInAPI" in
  let id_1 := derive_job_id env (add_minutes now_1 1) text_1 in
  let id_2 := derive_job_id env (add_minutes now_3 5) text_2 in
  (main_schedule env now_1 stamp now_3 w).1 = Return tt ∧
  id_1 ≠ id_2 ∧
  scheduler (main_schedule env now_1 stamp now_3 w).2 !! id_1
    = Some (job_of env (add_minutes now_1 1) text_1) ∧
  scheduler (main_schedule env now_1 stamp now_3 w).2 !! id_2
    = Some (job_of env (add_minutes now_3 5) text_2) ∧
  (scheduler w = ∅ → size (scheduler (main_schedule env now_1 stamp now_3 w).2) = 2%nat).
Proof.
  intros Hclock text_1 text_2 id_1 id_2.
  assert (id_2 ≠ id_1) as Hid.
  { intros H. apply derive_job_id_components in H as [Ht _]. unfold int_timestamp in Ht.
    pose proof (quot_lt_of_two_apart (micros (add_minutes now_1 1))
                  (micros (add_minutes now_3 5)) 1000000 ltac:(lia)) as Hlt.
    cbn [micros add_minutes] in *. lia. }
  unfold main_schedule. run. rewrite !schedule_datetime.
  cbn [fst snd scheduler after_schedule add_log].
  fold text_1 text_2 id_1 id_2.
  split; [done|]. split; [done|].
  split; [by rewrite lookup_insert_ne, lookup_insert_eq|].
  split; [by rewrite lookup_insert_eq|].
  intros ->. rewrite map_size_insert_None.
  - by rewrite insert_empty, map_size_singleton.
  - by rewrite lookup_insert_ne, lookup_empty.
Qed.

Lemma main_schedule_two_jobs_witness :
  size (scheduler (main_schedule Examples.env_ok Examples.t_future "2027-01-15 08:00:00"
                     Examples.t_future_later Examples.w_fresh).2) = 2%nat.
Proof.
  apply (main_schedule_two_jobs Examples.env_ok Examples.t_future "2027-01-15 08:00:00"
           Examples.t_future_later Examples.w_fresh); [simpl; lia | reflexivity].
Defined.
